(** * congress_alpha web UI: polling engine and signal lifecycle controller

    A shallow embedding of the client code of the monitoring UI:
    - [ui/lib/api.ts]: the request gateway [request] and [signalsApi];
    - [lib/usePolling]: the polling hook [usePolling];
    - [ui/components/SignalsClient.tsx]: the signals table, its action
      handlers and its navigation;
    - the trades page's [fetchTrades] and the dashboard's
      [fetchDashboardData].

    Asynchronous functions are split at their [await]: the part that runs
    when the function is called, and the continuation that runs when the
    awaited promise settles.  React state is an explicit record; every
    setter of the source writes an absolute value, so a handler is a
    function from state to state. *)

From Stdlib Require Import ZArith List String Ascii Bool Lia DecimalString DecimalPos.
Import ListNotations.
Set Warnings "-register-all".
Open Scope string_scope.
Open Scope list_scope.
Open Scope Z_scope.

Infix "+++" := String.append (right associativity, at level 60).

(** ** The JavaScript values the code manipulates *)

Module JS.

(** A settled promise. *)
Inductive outcome (T E : Type) : Type :=
| Resolved (v : T)
| Rejected (e : E).
Arguments Resolved {T E} v.
Arguments Rejected {T E} e.

(** Numbers.  The pages of this program come from [parseInt], from integer
    literals and from integer arithmetic on them, so a number is an integer
    or [NaN]. *)
Inductive num : Type :=
| NaN
| Int (z : Z).

Definition num_truthy (n : num) : bool :=
  match n with
  | NaN => false
  | Int z => negb (z =? 0)
  end.

Definition string_of_Z (z : Z) : string := NilZero.string_of_int (Z.to_int z).

(** [String(n)]. *)
Definition String_num (n : num) : string :=
  match n with
  | NaN => "NaN"
  | Int z => string_of_Z z
  end.

(** [String(b)] on a boolean. *)
Definition String_bool (b : bool) : string := if b then "true" else "false".

(** *** [parseInt(s)] without a radix *)

Definition is_white_space (c : ascii) : bool :=
  let n := N_of_ascii c in
  ((n =? 32) || ((9 <=? n) && (n <=? 13)))%N.

Fixpoint skip_white_space (s : string) : string :=
  match s with
  | String c rest => if is_white_space c then skip_white_space rest else s
  | EmptyString => s
  end.

Definition digit_value (radix : Z) (c : ascii) : option Z :=
  let n := Z.of_N (N_of_ascii c) in
  let v :=
    if (48 <=? n) && (n <=? 57) then Some (n - 48)
    else if (97 <=? n) && (n <=? 122) then Some (n - 87)
    else if (65 <=? n) && (n <=? 90) then Some (n - 55)
    else None in
  match v with
  | Some d => if d <? radix then Some d else None
  | None => None
  end.

(** The longest prefix of digits; [None] when there is no digit. *)
Fixpoint parse_digits (radix : Z) (s : string) (acc : option Z) : option Z :=
  match s with
  | String c rest =>
      match digit_value radix c with
      | Some d =>
          parse_digits radix rest
            (Some (match acc with Some a => a * radix + d | None => d end))
      | None => acc
      end
  | EmptyString => acc
  end.

Definition strip_sign (s : string) : Z * string :=
  match s with
  | String "-" rest => (-1, rest)
  | String "+" rest => (1, rest)
  | _ => (1, s)
  end.

Definition strip_hex_prefix (s : string) : Z * string :=
  match s with
  | String "0" (String "x" rest) => (16, rest)
  | String "0" (String "X" rest) => (16, rest)
  | _ => (10, s)
  end.

Definition parseInt (s : string) : num :=
  let '(sign, s1) := strip_sign (skip_white_space s) in
  let '(radix, s2) := strip_hex_prefix s1 in
  match parse_digits radix s2 None with
  | Some v => Int (sign * v)
  | None => NaN
  end.

(** *** [URLSearchParams]: an ordered list of name and value pairs *)

Definition URLSearchParams : Type := list (string * string).

Fixpoint get (k : string) (p : URLSearchParams) : option string :=
  match p with
  | [] => None
  | (k', v) :: rest => if String.eqb k k' then Some v else get k rest
  end.

Definition remove_all (k : string) (p : URLSearchParams) : URLSearchParams :=
  filter (fun kv => negb (String.eqb k (fst kv))) p.

(** [set] overwrites the first pair named [k] and drops the others, or
    appends a new pair. *)
Fixpoint set (k v : string) (p : URLSearchParams) : URLSearchParams :=
  match p with
  | [] => [(k, v)]
  | (k', v') :: rest =>
      if String.eqb k k' then (k, v) :: remove_all k rest
      else (k', v') :: set k v rest
  end.

Definition hex_digit (n : N) : ascii :=
  ascii_of_N (if (n <? 10)%N then 48 + n else 55 + n)%N.

(** The application/x-www-form-urlencoded byte serializer. *)
Definition encode_byte (c : ascii) : string :=
  let n := N_of_ascii c in
  if ((48 <=? n) && (n <=? 57) || (65 <=? n) && (n <=? 90)
      || (97 <=? n) && (n <=? 122)
      || (n =? 42) || (n =? 45) || (n =? 46) || (n =? 95))%N
  then String c EmptyString
  else if (n =? 32)%N then "+"
  else String "%" (String (hex_digit (n / 16)) (String (hex_digit (n mod 16)) EmptyString)).

Fixpoint encode (s : string) : string :=
  match s with
  | String c rest => encode_byte c +++ encode rest
  | EmptyString => EmptyString
  end.

Definition toString (p : URLSearchParams) : string :=
  String.concat "&" (map (fun kv => encode (fst kv) +++ "=" +++ encode (snd kv)) p).

(** *** Parsed JSON *)

(** What [response.json()] resolves with.  Numbers are the integer-valued
    ones; an object is the list of its own properties. *)
Inductive json : Type :=
| JNull
| JBool (b : bool)
| JNum (z : Z)
| JStr (s : string)
| JArr (l : list json)
| JObj (fields : list (string * json)).

Fixpoint assoc (k : string) (fields : list (string * json)) : option json :=
  match fields with
  | [] => None
  | (k', v) :: rest => if String.eqb k k' then Some v else assoc k rest
  end.

(** Reading [v.k] for a name [k] that no prototype defines ([detail],
    [deleted_count]): a [TypeError] on [null], [undefined] (here [None]) on
    the primitives, on arrays and on objects without the property. *)
Inductive access : Type :=
| Throws
| Value (v : option json).

Definition get_prop (v : json) (k : string) : access :=
  match v with
  | JNull => Throws
  | JObj fields => Value (assoc k fields)
  | _ => Value None
  end.

Definition truthy (v : option json) : bool :=
  match v with
  | None => false
  | Some JNull => false
  | Some (JBool b) => b
  | Some (JNum z) => negb (z =? 0)
  | Some (JStr s) => negb (String.eqb s "")
  | Some (JArr _) => true
  | Some (JObj _) => true
  end.

(** [String(v)], as the [Error] constructor and template literals apply
    it. *)
Fixpoint ToString (v : json) : string :=
  match v with
  | JNull => "null"
  | JBool b => String_bool b
  | JNum z => string_of_Z z
  | JStr s => s
  | JArr l =>
      String.concat ","
        (map (fun x => match x with JNull => "" | _ => ToString x end) l)
  | JObj _ => "[object Object]"
  end.

Definition ToString_opt (v : option json) : string :=
  match v with
  | None => "undefined"
  | Some x => ToString x
  end.

(** *** Thrown values *)

(** An [Error] instance: its [name], its [message], and the [status] field
    that only [ApiError] declares. *)
Record Error : Type := mkError {
  name : string;
  message : string;
  status : option Z
}.

Definition TypeError (msg : string) : Error :=
  {| name := "TypeError"; message := msg; status := None |}.

Definition SyntaxError (msg : string) : Error :=
  {| name := "SyntaxError"; message := msg; status := None |}.

Definition GenericError (msg : string) : Error :=
  {| name := "Error"; message := msg; status := None |}.

(** Anything a promise can reject with. *)
Inductive thrown : Type :=
| ThrownError (e : Error)
| ThrownOther (v : json).

(** *** [encodeURIComponent]

    A string is the UTF-8 encoding of its text, so every string here is
    well formed and the function does not throw. *)

Definition uri_unreserved (c : ascii) : bool :=
  let n := N_of_ascii c in
  ((48 <=? n) && (n <=? 57) || (65 <=? n) && (n <=? 90)
   || (97 <=? n) && (n <=? 122)
   || (n =? 45) || (n =? 95) || (n =? 46) || (n =? 33) || (n =? 126)
   || (n =? 42) || (n =? 39) || (n =? 40) || (n =? 41))%N.

Definition percent_byte (c : ascii) : string :=
  let n := N_of_ascii c in
  String "%" (String (hex_digit (n / 16)) (String (hex_digit (n mod 16)) EmptyString)).

Fixpoint encodeURIComponent (s : string) : string :=
  match s with
  | String c rest =>
      (if uri_unreserved c then String c EmptyString else percent_byte c)
      +++ encodeURIComponent rest
  | EmptyString => EmptyString
  end.






(** [String(e)] on an [Error]: [Error.prototype.toString]. *)
Definition Error_toString (e : Error) : string :=
  if String.eqb (name e) "" then message e
  else if String.eqb (message e) "" then name e
  else name e +++ ": " +++ message e.

(** [String(err)] on what a [catch] receives. *)
Definition String_thrown (err : thrown) : string :=
  match err with
  | ThrownError e => Error_toString e
  | ThrownOther v => ToString v
  end.

(** *** Decimal numerals *)


End JS.

(** ** [ui/lib/api.ts]: the request gateway *)

Module Api.
Import JS.

(** [class ApiError extends Error] with its [public status]. *)
Definition ApiError (st : Z) (msg : string) : Error :=
  {| name := "ApiError"; message := msg; status := Some st |}.

(** What [fetch] resolves with, as far as [request] looks at it: the status
    line and what [response.json()] makes of the body ([None] when it
    rejects, the body not being JSON). *)
Record Response : Type := mkResponse {
  resp_status : Z;
  resp_json : option json
}.

Definition ok (r : Response) : bool :=
  (200 <=? resp_status r) && (resp_status r <=? 299).

(** How the network answers a [fetch]: it rejects with a [TypeError] when no
    response arrives. *)
Inductive fetched : Type :=
| NetworkFailure (msg : string)
| Responded (r : Response).

(** The message of the engine's own [TypeError] for [null.detail]. *)
Definition null_access_message : string :=
  "Cannot read properties of null (reading 'detail')".

(** [request]: the promise it returns, given the network's answer. *)
Definition request (net : fetched) : outcome json Error :=
  match net with
  | NetworkFailure msg => Rejected (TypeError msg)
  | Responded response =>
      if negb (ok response) then
        let error :=
          match resp_json response with
          | Some v => v
          | None => JObj [("detail", JStr "Unknown error")]
          end in
        match get_prop error "detail" with
        | Throws => Rejected (TypeError null_access_message)
        | Value detail =>
            Rejected (ApiError (resp_status response)
                        (if truthy detail then ToString_opt detail
                         else "Request failed"))
        end
      else
        match resp_json response with
        | Some v => Resolved v
        | None => Rejected (SyntaxError "Unexpected end of JSON input")
        end
  end.

(** A call as it leaves the gateway. *)
Record Request : Type := mkRequest {
  method : string;
  endpoint : string
}.

(** The argument of [signalsApi.list]; an absent field is [undefined]. *)
Record ListParams : Type := mkListParams {
  page : option num;
  page_size : option num;
  processed : option bool
}.

(** [params?.f]. *)
Definition field {A : Type} (f : ListParams -> option A)
  (params : option ListParams) : option A :=
  match params with
  | Some p => f p
  | None => None
  end.

Definition opt_truthy (n : option num) : bool :=
  match n with
  | Some v => num_truthy v
  | None => false
  end.

Definition set_num (k : string) (n : option num) (sp : URLSearchParams)
  : URLSearchParams :=
  match n with
  | Some v => set k (String_num v) sp
  | None => set k "undefined" sp
  end.

(** The [searchParams] object that [signalsApi.list] fills in. *)
Definition list_searchParams (params : option ListParams) : URLSearchParams :=
  let searchParams : URLSearchParams := [] in
  let searchParams :=
    if opt_truthy (field page params)
    then set_num "page" (field page params) searchParams
    else searchParams in
  let searchParams :=
    if opt_truthy (field page_size params)
    then set_num "page_size" (field page_size params) searchParams
    else searchParams in
  match field processed params with
  | Some b => set "processed" (String_bool b) searchParams
  | None => searchParams
  end.

Definition with_query (path query : string) : string :=
  path +++ (if String.eqb query "" then "" else "?" +++ query).

Module signalsApi.

Definition list (params : option ListParams) : Request :=
  let query := toString (list_searchParams params) in
  {| method := "GET"; endpoint := with_query "/api/signals" query |}.

Definition confirm (id : Z) : Request :=
  {| method := "POST";
     endpoint := "/api/signals/" +++ string_of_Z id +++ "/confirm" |}.

Definition reject (id : Z) : Request :=
  {| method := "POST";
     endpoint := "/api/signals/" +++ string_of_Z id +++ "/reject" |}.

Definition delete (id : Z) : Request :=
  {| method := "DELETE"; endpoint := "/api/signals/" +++ string_of_Z id |}.

Definition deleteAll (processedOnly : bool) : Request :=
  {| method := "DELETE";
     endpoint := "/api/signals?processed_only=" +++ String_bool processedOnly |}.

End signalsApi.

(** The argument of [tradesApi.list]. *)
Record TradeListParams : Type := mkTradeListParams {
  t_page : option num;
  t_page_size : option num;
  t_ticker : option string
}.

Module tradesApi.

Definition list_searchParams (params : TradeListParams) : URLSearchParams :=
  let searchParams : URLSearchParams := [] in
  let searchParams :=
    if opt_truthy (t_page params)
    then set_num "page" (t_page params) searchParams
    else searchParams in
  let searchParams :=
    if opt_truthy (t_page_size params)
    then set_num "page_size" (t_page_size params) searchParams
    else searchParams in
  match t_ticker params with
  | Some t => if String.eqb t "" then searchParams else set "ticker" t searchParams
  | None => searchParams
  end.

Definition list (params : TradeListParams) : Request :=
  let query := toString (list_searchParams params) in
  {| method := "GET"; endpoint := with_query "/api/trades" query |}.

Definition getStats : Request :=
  {| method := "GET"; endpoint := "/api/trades/stats" |}.

End tradesApi.

Module politiciansApi.

Definition list : Request :=
  {| method := "GET"; endpoint := "/api/politicians" |}.

Definition getCount : Request :=
  {| method := "GET"; endpoint := "/api/politicians/count" |}.

Definition remove (name : string) : Request :=
  {| method := "DELETE";
     endpoint := "/api/politicians/" +++ encodeURIComponent name |}.

End politiciansApi.

Module portfolioApi.

Definition getPositions : Request :=
  {| method := "GET"; endpoint := "/api/portfolio/positions" |}.

Definition getSummary : Request :=
  {| method := "GET"; endpoint := "/api/portfolio/summary" |}.

End portfolioApi.

Module actionsApi.

Definition triggerScrape : Request :=
  {| method := "POST"; endpoint := "/api/actions/scrape" |}.

Definition triggerTrade : Request :=
  {| method := "POST"; endpoint := "/api/actions/trade" |}.

Definition triggerFullCycle : Request :=
  {| method := "POST"; endpoint := "/api/actions/cycle" |}.

End actionsApi.

End Api.

(** ** [lib/usePolling]: the polling hook *)

Module Polling.
Import JS.

(** Milliseconds since the epoch, what [new Date()] reads off the clock. *)
Definition Date : Type := Z.

Section Hook.

(** The type of the polled data, [usePolling<T>]. *)
Context {T : Type}.

(** The five [useState] cells of the hook. *)
Record PollState : Type := mkPollState {
  data : option T;
  error : option Error;
  isLoading : bool;
  isRefreshing : bool;
  lastUpdated : option Date
}.

(** The arguments of the five [useState] calls. *)
Definition useState_initial : PollState :=
  {| data := None; error := None; isLoading := true;
     isRefreshing := false; lastUpdated := None |}.

Definition setData (v : option T) (s : PollState) : PollState :=
  {| data := v; error := error s; isLoading := isLoading s;
     isRefreshing := isRefreshing s; lastUpdated := lastUpdated s |}.

Definition setError (v : option Error) (s : PollState) : PollState :=
  {| data := data s; error := v; isLoading := isLoading s;
     isRefreshing := isRefreshing s; lastUpdated := lastUpdated s |}.

Definition setIsLoading (v : bool) (s : PollState) : PollState :=
  {| data := data s; error := error s; isLoading := v;
     isRefreshing := isRefreshing s; lastUpdated := lastUpdated s |}.

Definition setIsRefreshing (v : bool) (s : PollState) : PollState :=
  {| data := data s; error := error s; isLoading := isLoading s;
     isRefreshing := v; lastUpdated := lastUpdated s |}.

Definition setLastUpdated (v : option Date) (s : PollState) : PollState :=
  {| data := data s; error := error s; isLoading := isLoading s;
     isRefreshing := isRefreshing s; lastUpdated := v |}.

(** [fetchData(isInitial)] up to [await fetchFn()]. *)
Definition fetchData_call (isInitial : bool) (s : PollState) : PollState :=
  if isInitial then setIsLoading true s else setIsRefreshing true s.

(** The [finally] block. *)
Definition fetchData_finally (s : PollState) : PollState :=
  setIsRefreshing false (setIsLoading false s).

(** [err instanceof Error ? err : new Error("Failed to fetch")]. *)
Definition as_Error (err : thrown) : Error :=
  match err with
  | ThrownError e => e
  | ThrownOther _ => GenericError "Failed to fetch"
  end.

(** [fetchData] from the moment [fetchFn()] settles; [now] is the clock
    that [new Date()] reads. *)
Definition fetchData_settled (o : outcome T thrown) (now : Date)
  (s : PollState) : PollState :=
  match o with
  | Resolved result =>
      fetchData_finally
        (setLastUpdated (Some now) (setError None (setData (Some result) s)))
  | Rejected err =>
      fetchData_finally (setError (Some (as_Error err)) s)
  end.

(** *** The hook under its three callers

    The hook keeps no record of its calls.  To speak about them the engine
    numbers the invocations of [fetchData] in the order they are made
    ([issued], [in_flight]); the numbers are the model's bookkeeping and no
    function of the source reads them. *)

Record Engine : Type := mkEngine {
  state : PollState;
  issued : nat;
  in_flight : list nat
}.

Inductive Event : Type :=
| InitialRun                   (* the effect [fetchData(true)] *)
| IntervalTick                 (* the [setInterval] callback *)
| ManualRefresh                (* [refresh()] *)
| Settle (seq : nat) (o : outcome T thrown) (now : Date).

(** The [enabled] argument of the hook: the timer exists only with it. *)
Variable enabled : bool.

Definition invoke (isInitial : bool) (e : Engine) : Engine :=
  {| state := fetchData_call isInitial (state e);
     issued := S (issued e);
     in_flight := S (issued e) :: in_flight e |}.

Definition step (e : Engine) (ev : Event) : option Engine :=
  match ev with
  | InitialRun => Some (invoke true e)
  | IntervalTick => if enabled then Some (invoke false e) else None
  | ManualRefresh => Some (invoke false e)
  | Settle seq o now =>
      if existsb (Nat.eqb seq) (in_flight e)
      then Some {| state := fetchData_settled o now (state e);
                   issued := issued e;
                   in_flight := List.remove Nat.eq_dec seq (in_flight e) |}
      else None
  end.

Fixpoint run (e : Engine) (tr : list Event) : option Engine :=
  match tr with
  | [] => Some e
  | ev :: rest =>
      match step e ev with
      | Some e' => run e' rest
      | None => None
      end
  end.

(** The hook at its first render, before any effect has run. *)
Definition first_render : Engine :=
  {| state := useState_initial; issued := 0; in_flight := [] |}.

(** The completions of a trace that resolved, oldest first, each with the
    number of its invocation. *)
Fixpoint resolved_completions (tr : list Event) : list (nat * T) :=
  match tr with
  | [] => []
  | Settle seq (Resolved v) _ :: rest => (seq, v) :: resolved_completions rest
  | _ :: rest => resolved_completions rest
  end.

(** Among them, the one whose invocation was issued last. *)
Fixpoint highest_issued (l : list (nat * T)) : option (nat * T) :=
  match l with
  | [] => None
  | (seq, v) :: rest =>
      match highest_issued rest with
      | Some (seq', v') => if (seq <? seq')%nat then Some (seq', v') else Some (seq, v)
      | None => Some (seq, v)
      end
  end.

(** And the one that completed last. *)
Definition last_completed (l : list (nat * T)) : option T :=
  match rev l with
  | [] => None
  | (_, v) :: _ => Some v
  end.

(** The claimed ordering guard, stated over the engine's numbering: the
    data on screen is the result of the resolved fetch that was issued
    last, and a completion that is not the latest issued changes nothing. *)
Definition newest_issued_wins : Prop :=
  forall (tr : list Event) (e : Engine) (seq : nat) (v : T),
    run first_render tr = Some e ->
    highest_issued (resolved_completions tr) = Some (seq, v) ->
    data (state e) = Some v.

Definition stale_completion_discarded : Prop :=
  forall (e e' : Engine) (seq : nat) (o : outcome T thrown) (now : Date),
    step e (Settle seq o now) = Some e' ->
    seq <> issued e ->
    data (state e') = data (state e).

(** *** What a run leaves in a cell

    A cell of the hook holds what the last event that wrote it put there.
    [last_write w tr] is that value, [w] telling what an event writes. *)

Fixpoint last_write {A : Type} (w : Event -> option A) (tr : list Event)
  : option A :=
  match tr with
  | [] => None
  | ev :: rest =>
      match last_write w rest with
      | Some a => Some a
      | None => w ev
      end
  end.

(** [setLastUpdated] is called when a fetch resolves. *)
Definition writes_lastUpdated (ev : Event) : option (option Date) :=
  match ev with
  | Settle _ (Resolved _) now => Some (Some now)
  | _ => None
  end.

(** [setError] is called on both paths. *)
Definition writes_error (ev : Event) : option (option Error) :=
  match ev with
  | Settle _ (Resolved _) _ => Some None
  | Settle _ (Rejected err) _ => Some (Some (as_Error err))
  | _ => None
  end.

Definition or_else {A : Type} (o : option A) (d : A) : A :=
  match o with
  | Some a => a
  | None => d
  end.

(** No fetch of the trace rejects. *)
Definition never_rejects (tr : list Event) : bool :=
  forallb
    (fun ev => match ev with
               | Settle _ (Rejected _) _ => false
               | _ => true
               end)
    tr.

End Hook.

Arguments PollState T : clear implicits.
Arguments Engine T : clear implicits.
Arguments Event T : clear implicits.

(** [formatRelativeTime(date)] at the moment [Date.now()] reads [now].  A
    [Date] is its [getTime()], milliseconds since the epoch or [NaN] for an
    invalid date; [Math.floor] of a quotient of integers is [Z.div]. *)
Definition formatRelativeTime (date : option num) (now : Z) : string :=
  match date with
  | None => "Never"
  | Some NaN => "NaNh ago"
  | Some (Int t) =>
      let seconds := (now - t) / 1000 in
      if seconds <? 5 then "Just now"
      else if seconds <? 60 then string_of_Z seconds +++ "s ago"
      else if seconds <? 3600 then string_of_Z (seconds / 60) +++ "m ago"
      else string_of_Z (seconds / 3600) +++ "h ago"
  end.

(** The [lastUpdated] of the hook as a [Date | null]. *)
Definition as_date (lastUpdated : option Date) : option num :=
  option_map Int lastUpdated.

End Polling.

(** ** [ui/components/SignalsClient.tsx]: the signals table *)

Module SignalsClient.
Import JS.

Definition POLL_INTERVAL : Z := 30000.

(** The fields of a [TradeSignal] that the component branches on; [id] and
    [status] may be absent. *)
Record TradeSignal : Type := mkTradeSignal {
  id : option Z;
  ticker : string;
  trade_type : string;
  status : option string;
  processed : bool
}.

Record PaginatedSignals : Type := mkPaginatedSignals {
  items : list TradeSignal;
  total : Z;
  page : Z;
  page_size : Z;
  pages : Z
}.

(** What the mutating endpoints answer; [deleted_count] only comes with
    [deleteAll]. *)
Record ActionResult : Type := mkActionResult {
  result_status : string;
  result_message : string;
  deleted_count : option Z
}.

(** *** The view state: the query of the current URL

    [router.push(href)] makes [useSearchParams()] return the query of
    [href]; the location is kept as the [URLSearchParams] object the
    handler built, [href] being its serialization. *)

(** [const page = searchParams.get("page") ? parseInt(...) : 1]. *)
Definition url_page (searchParams : URLSearchParams) : num :=
  match get "page" searchParams with
  | Some s => if String.eqb s "" then Int 1 else parseInt s
  | None => Int 1
  end.

(** [const processed = processedParam === "true" ? true : ...]. *)
Definition url_processed (searchParams : URLSearchParams) : option bool :=
  match get "processed" searchParams with
  | Some s =>
      if String.eqb s "true" then Some true
      else if String.eqb s "false" then Some false
      else None
  | None => None
  end.

(** The call [fetchSignals] makes under a given location. *)
Definition fetchSignals (searchParams : URLSearchParams) : Api.Request :=
  Api.signalsApi.list
    (Some {| Api.page := Some (url_page searchParams);
             Api.page_size := Some (Int 20);
             Api.processed := url_processed searchParams |}).

(** [setFilter(value)]: the parameters it builds and the URL it pushes. *)
Definition setFilter (value : option string) : URLSearchParams :=
  let params : URLSearchParams := [] in
  match value with
  | Some v => set "processed" v params
  | None => params
  end.

Definition setFilter_href (value : option string) : string :=
  Api.with_query "/signals" (toString (setFilter value)).

(** The [onClick] of Previous and Next, for the target page [n]. *)
Definition goto_page (n : Z) (processed : option bool) : URLSearchParams :=
  let params : URLSearchParams := [] in
  let params := set "page" (string_of_Z n) params in
  match processed with
  | Some b => set "processed" (String_bool b) params
  | None => params
  end.

Definition goto_page_href (n : Z) (processed : option bool) : string :=
  "/signals?" +++ toString (goto_page n processed).

(** *** The component and the world around it *)

Inductive Action : Type :=
| Confirm (signalId : Z)
| Reject (signalId : Z)
| Delete (signalId : Z)
| DeleteAll (processedOnly : bool).

(** The signal an action is about. *)
Definition target (a : Action) : option Z :=
  match a with
  | Confirm i | Reject i | Delete i => Some i
  | DeleteAll _ => None
  end.

(** A handler suspended at its [await]: the action it asked for and the
    [refresh] of the render it was created in, that is the call its
    [fetchFn] makes. *)
Record Suspended : Type := mkSuspended {
  what : Action;
  captured_fetch : Api.Request
}.

(** What the component does to the outside, in the order it does it. *)
Inductive Effect : Type :=
| Net (r : Api.Request)
| Dialog (question : string) (answer : bool)
| Alert (text : string)
| ConsoleError (text : string) (e : Error).

Record State : Type := mkState {
  location : URLSearchParams;
  poll : Polling.PollState PaginatedSignals;
  actionLoading : option Z;
  next_ticket : nat;
  fetches : list nat;
  actions : list (nat * Suspended);
  log : list Effect
}.

Definition setActionLoading (v : option Z) (s : State) : State :=
  {| location := location s; poll := poll s; actionLoading := v;
     next_ticket := next_ticket s; fetches := fetches s;
     actions := actions s; log := log s |}.

Definition set_poll (p : Polling.PollState PaginatedSignals) (s : State)
  : State :=
  {| location := location s; poll := p; actionLoading := actionLoading s;
     next_ticket := next_ticket s; fetches := fetches s;
     actions := actions s; log := log s |}.

Definition set_location (sp : URLSearchParams) (s : State) : State :=
  {| location := sp; poll := poll s; actionLoading := actionLoading s;
     next_ticket := next_ticket s; fetches := fetches s;
     actions := actions s; log := log s |}.

Definition emit (e : Effect) (s : State) : State :=
  {| location := location s; poll := poll s; actionLoading := actionLoading s;
     next_ticket := next_ticket s; fetches := fetches s;
     actions := actions s; log := log s ++ [e] |}.

(** A fetch of the hook goes in flight. *)
Definition suspend_fetch (s : State) : State :=
  {| location := location s; poll := poll s; actionLoading := actionLoading s;
     next_ticket := S (next_ticket s);
     fetches := next_ticket s :: fetches s;
     actions := actions s; log := log s |}.

(** A handler goes in flight at its [await]. *)
Definition suspend_action (k : Suspended) (s : State) : State :=
  {| location := location s; poll := poll s; actionLoading := actionLoading s;
     next_ticket := S (next_ticket s); fetches := fetches s;
     actions := actions s ++ [(next_ticket s, k)]; log := log s |}.

Definition set_fetches (l : list nat) (s : State) : State :=
  {| location := location s; poll := poll s; actionLoading := actionLoading s;
     next_ticket := next_ticket s; fetches := l;
     actions := actions s; log := log s |}.

Definition set_actions (l : list (nat * Suspended)) (s : State) : State :=
  {| location := location s; poll := poll s; actionLoading := actionLoading s;
     next_ticket := next_ticket s; fetches := fetches s;
     actions := l; log := log s |}.

(** [fetchData(isInitial)] of the hook, with the [fetchFn] of some render:
    the flags are set, the call leaves, the function waits. *)
Definition fetchData (isInitial : bool) (fetchFn : Api.Request) (s : State)
  : State :=
  suspend_fetch
    (emit (Net fetchFn)
       (set_poll (Polling.fetchData_call isInitial (poll s)) s)).

(** [refresh()] of the hook. *)
Definition refresh (fetchFn : Api.Request) (s : State) : State :=
  fetchData false fetchFn s.

(** *** Rendering *)

(** [if (isLoading || !signals) return <SignalsSkeleton />]: the snapshot on
    screen, if the table is. *)
Definition displayed (s : State) : option PaginatedSignals :=
  if Polling.isLoading (poll s) then None else Polling.data (poll s).

(** [signal.id &&]: the id when it is truthy. *)
Definition truthy_id (signal : TradeSignal) : option Z :=
  match id signal with
  | Some i => if i =? 0 then None else Some i
  | None => None
  end.

Definition is_pending_confirmation (signal : TradeSignal) : bool :=
  match status signal with
  | Some st => String.eqb st "pending_confirmation"
  | None => false
  end.

Inductive Button : Type :=
| ConfirmButton
| RejectButton
| DeleteButton.

(** Whether a row shows the button, and the id its [onClick] passes on. *)
Definition rendered (b : Button) (signal : TradeSignal) : option Z :=
  match b with
  | ConfirmButton | RejectButton =>
      if is_pending_confirmation signal then truthy_id signal else None
  | DeleteButton => truthy_id signal
  end.

(** [disabled={actionLoading === signal.id}] on a row that has an id. *)
Definition disabled (actionLoading : option Z) (i : Z) : bool :=
  match actionLoading with
  | Some a => a =? i
  | None => false
  end.

(** The id a click on button [b] of row [row] hands to its handler; [None]
    when the button is not on screen or is disabled. *)
Definition onClick (s : State) (b : Button) (row : nat) : option Z :=
  match displayed s with
  | Some signals =>
      match nth_error (items signals) row with
      | Some signal =>
          match rendered b signal with
          | Some i => if disabled (actionLoading s) i then None else Some i
          | None => None
          end
      | None => None
      end
  | None => None
  end.

Definition getStatusLabel (signal : TradeSignal) : string :=
  match status signal with
  | Some "pending_confirmation" => "Needs Confirmation"
  | Some "confirmed" => "Confirmed"
  | Some "rejected" => "Rejected"
  | Some "executed" => "Executed"
  | _ => if processed signal then "Executed" else "Pending"
  end.

(** *** The handlers, each split at its [await] *)

Definition request_of (a : Action) : Api.Request :=
  match a with
  | Confirm i => Api.signalsApi.confirm i
  | Reject i => Api.signalsApi.reject i
  | Delete i => Api.signalsApi.delete i
  | DeleteAll processedOnly => Api.signalsApi.deleteAll processedOnly
  end.

(** The call leaves and the handler waits for it, holding the [refresh] of
    the current render. *)
Definition await (a : Action) (s : State) : State :=
  suspend_action
    {| what := a; captured_fetch := fetchSignals (location s) |}
    (emit (Net (request_of a)) s).

Definition handleConfirm (signalId : Z) (s : State) : State :=
  await (Confirm signalId) (setActionLoading (Some signalId) s).

Definition handleReject (signalId : Z) (s : State) : State :=
  await (Reject signalId) (setActionLoading (Some signalId) s).

(** [answer] is what the user replies to [confirm(...)]. *)
Definition handleDelete (signalId : Z) (answer : bool) (s : State) : State :=
  let s := emit (Dialog "Are you sure you want to delete this signal?" answer) s in
  if negb answer then s
  else await (Delete signalId) (setActionLoading (Some signalId) s).

Definition handleDeleteAll (processedOnly answer : bool) (s : State) : State :=
  let message :=
    if processedOnly
    then "Are you sure you want to delete all PROCESSED signals?"
    else "Are you sure you want to delete ALL signals? This cannot be undone!" in
  let s := emit (Dialog message answer) s in
  if negb answer then s
  else await (DeleteAll processedOnly) s.

Definition failure_text (a : Action) : string :=
  match a with
  | Confirm _ => "Failed to confirm signal:"
  | Reject _ => "Failed to reject signal:"
  | Delete _ => "Failed to delete signal:"
  | DeleteAll _ => "Failed to delete signals:"
  end.

(** [`Deleted ${result.deleted_count} signals`]. *)
Definition deleted_text (result : ActionResult) : string :=
  "Deleted "
  +++ match deleted_count result with
      | Some n => string_of_Z n
      | None => "undefined"
      end
  +++ " signals".

(** The rest of a handler once its call has settled: the [try] after the
    [await], the [catch], the [finally]. *)
Definition resume (k : Suspended) (o : outcome ActionResult Error)
  (s : State) : State :=
  match what k with
  | Confirm _ | Reject _ | Delete _ =>
      let s :=
        match o with
        | Resolved _ => refresh (captured_fetch k) s
        | Rejected e => emit (ConsoleError (failure_text (what k)) e) s
        end in
      setActionLoading None s
  | DeleteAll _ =>
      match o with
      | Resolved result =>
          refresh (captured_fetch k) (emit (Alert (deleted_text result)) s)
      | Rejected e => emit (ConsoleError (failure_text (what k)) e) s
      end
  end.

(** *** Events *)

Inductive Event : Type :=
| IntervalTick
| ClickRefresh
| FetchSettled (ticket : nat) (o : outcome PaginatedSignals thrown)
    (now : Polling.Date)
| Click (b : Button) (row : nat) (answer : bool)
| ClickDeleteAll (processedOnly answer : bool)
| ActionSettled (ticket : nat) (o : outcome ActionResult Error)
| ClickFilter (value : option bool)
| ClickPrevious
| ClickNext.

Fixpoint lookup (ticket : nat) (l : list (nat * Suspended)) : option Suspended :=
  match l with
  | [] => None
  | (t, k) :: rest => if Nat.eqb ticket t then Some k else lookup ticket rest
  end.

Definition drop (ticket : nat) (l : list (nat * Suspended))
  : list (nat * Suspended) :=
  filter (fun tk => negb (Nat.eqb ticket (fst tk))) l.

Definition num_eqb (a b : num) : bool :=
  match a, b with
  | NaN, NaN => true
  | Int x, Int y => x =? y
  | _, _ => false
  end.

Definition filter_eqb (a b : option bool) : bool :=
  match a, b with
  | None, None => true
  | Some x, Some y => Bool.eqb x y
  | _, _ => false
  end.

(** [router.push]: the location changes; when [page] or [processed] do,
    [fetchSignals] and with it [fetchData] are new functions and the effect
    [fetchData(true)] runs again. *)
Definition navigate (params : URLSearchParams) (s : State) : State :=
  let s' := set_location params s in
  if num_eqb (url_page params) (url_page (location s))
     && filter_eqb (url_processed params) (url_processed (location s))
  then s'
  else fetchData true (fetchSignals params) s'.

Definition step (s : State) (ev : Event) : State :=
  match ev with
  | IntervalTick => fetchData false (fetchSignals (location s)) s
  | ClickRefresh =>
      match displayed s with
      | Some _ =>
          if Polling.isRefreshing (poll s) then s
          else refresh (fetchSignals (location s)) s
      | None => s
      end
  | FetchSettled ticket o now =>
      if existsb (Nat.eqb ticket) (fetches s)
      then set_fetches (List.remove Nat.eq_dec ticket (fetches s))
             (set_poll (Polling.fetchData_settled o now (poll s)) s)
      else s
  | Click b row answer =>
      match onClick s b row with
      | Some signalId =>
          match b with
          | ConfirmButton => handleConfirm signalId s
          | RejectButton => handleReject signalId s
          | DeleteButton => handleDelete signalId answer s
          end
      | None => s
      end
  | ClickDeleteAll processedOnly answer =>
      match displayed s with
      | Some _ => handleDeleteAll processedOnly answer s
      | None => s
      end
  | ActionSettled ticket o =>
      match lookup ticket (actions s) with
      | Some k => resume k o (set_actions (drop ticket (actions s)) s)
      | None => s
      end
  | ClickFilter value =>
      match displayed s with
      | Some _ => navigate (setFilter (option_map String_bool value)) s
      | None => s
      end
  | ClickPrevious =>
      match displayed s with
      | Some signals =>
          if (pages signals >? 1) && (page signals >? 1)
          then navigate
                 (goto_page (page signals - 1) (url_processed (location s))) s
          else s
      | None => s
      end
  | ClickNext =>
      match displayed s with
      | Some signals =>
          if (pages signals >? 1) && (page signals <? pages signals)
          then navigate
                 (goto_page (page signals + 1) (url_processed (location s))) s
          else s
      | None => s
      end
  end.

Definition run (s : State) (tr : list Event) : State := fold_left step tr s.

(** The component once mounted under a URL: first render, then the effect
    [fetchData(true)]. *)
Definition mount (searchParams : URLSearchParams) : State :=
  fetchData true (fetchSignals searchParams)
    {| location := searchParams;
       poll := Polling.useState_initial;
       actionLoading := None;
       next_ticket := 0;
       fetches := [];
       actions := [];
       log := [] |}.

Definition is_single (tk : nat * Suspended) : bool :=
  match target (what (snd tk)) with
  | Some _ => true
  | None => false
  end.

Definition is_on (i : Z) (tk : nat * Suspended) : bool :=
  match target (what (snd tk)) with
  | Some j => j =? i
  | None => false
  end.

(** The single-signal actions in flight on signal [i]. *)
Definition in_flight_on (i : Z) (s : State) : list (nat * Suspended) :=
  filter (is_on i) (actions s).

(** All single-signal actions in flight. *)
Definition in_flight_single (s : State) : list (nat * Suspended) :=
  filter is_single (actions s).

(** The id of the signal shown in a row of the table, when it has one. *)
Definition row_id (s : State) (row : nat) : option Z :=
  match displayed s with
  | Some signals =>
      match nth_error (items signals) row with
      | Some signal => truthy_id signal
      | None => None
      end
  | None => None
  end.

(** A run in which the user clicks on the buttons of signal [i] only
    (clicks on rows without an id reach no handler). *)
Fixpoint clicks_only (i : Z) (s : State) (tr : list Event) : bool :=
  match tr with
  | [] => true
  | ev :: rest =>
      match ev with
      | Click _ row _ =>
          match row_id s row with
          | Some j => j =? i
          | None => true
          end
      | _ => true
      end
      && clicks_only i (step s ev) rest
  end.

(** What the slot guarantees in a run on signal [i]: nothing is in flight,
    or one action on [i] is and the slot holds [i]. *)
Definition serial (i : Z) (s : State) : Prop :=
  in_flight_single s = []
  \/ exists tk,
       in_flight_single s = [tk]
       /\ target (what (snd tk)) = Some i
       /\ actionLoading s = Some i.

(** The claimed lock per signal: never two actions in flight on one
    signal, and a signal stays locked for as long as its action is in
    flight, whatever happens to the others. *)
Definition one_action_per_signal : Prop :=
  forall (searchParams : URLSearchParams) (tr : list Event) (i : Z),
    (List.length (in_flight_on i (run (mount searchParams) tr)) <= 1)%nat.

Definition locked_while_in_flight : Prop :=
  forall (searchParams : URLSearchParams) (tr : list Event) (i : Z),
    in_flight_on i (run (mount searchParams) tr) <> [] ->
    disabled (actionLoading (run (mount searchParams) tr)) i = true.

(** The calls that have left so far. *)
Definition calls (s : State) : list Api.Request :=
  flat_map (fun e => match e with Net r => [r] | _ => [] end) (log s).

(** No fetch of the run resolves. *)
Definition no_success (tr : list Event) : bool :=
  forallb
    (fun ev => match ev with
               | FetchSettled _ (Resolved _) _ => false
               | _ => true
               end)
    tr.

Definition is_delete (r : Api.Request) : bool :=
  String.eqb (Api.method r) "DELETE".

(** Every DELETE call of a log comes right after a dialog that the user
    agreed to; [agreed] tells whether the effect before the list was one. *)
Fixpoint deletes_follow_consent (agreed : bool) (l : list Effect) : bool :=
  match l with
  | [] => true
  | Dialog _ answer :: rest => deletes_follow_consent answer rest
  | Net r :: rest =>
      (negb (is_delete r) || agreed) && deletes_follow_consent false rest
  | _ :: rest => deletes_follow_consent false rest
  end.

(** The [refresh] a suspended handler holds makes no DELETE call. *)
Definition holds_a_fetch (tk : nat * Suspended) : bool :=
  negb (is_delete (captured_fetch (snd tk))).

(** The component under [searchParams] before any fetch has resolved. *)
Definition waiting (searchParams : URLSearchParams) (s : State) : Prop :=
  Polling.data (poll s) = None
  /\ location s = searchParams
  /\ actions s = []
  /\ actionLoading s = None
  /\ Forall (fun e => e = Net (fetchSignals searchParams)) (log s).

(** The tickets of the handlers in flight were all handed out before. *)
Definition tickets_fresh (s : State) : Prop :=
  Forall (fun tk => (fst tk < next_ticket s)%nat) (actions s).


(** The claim that a refresh is requested however the call of a
    single-signal action settles. *)
Definition refresh_whatever_the_outcome : Prop :=
  forall (s : State) (ticket : nat) (k : Suspended)
         (o : outcome ActionResult Error) (i : Z),
    lookup ticket (actions s) = Some k ->
    target (what k) = Some i ->
    fetches (step s (ActionSettled ticket o)) = next_ticket s :: fetches s.

End SignalsClient.

(** ** Aggregate fetches of the pages *)

Module Aggregate.
Import JS.

(** [Promise.all] of two promises, by how they settle.  When both reject,
    the first to do so decides the reason; here it is the first listed, and
    no handler of this program looks at the reason. *)
Definition Promise_all2 {A B : Type}
  (a : outcome A thrown) (b : outcome B thrown) : outcome (A * B) thrown :=
  match a, b with
  | Resolved x, Resolved y => Resolved (x, y)
  | Rejected e, _ => Rejected e
  | _, Rejected e => Rejected e
  end.

(** [p.catch(() => null)]. *)
Definition catch_null {A : Type} (p : outcome A thrown)
  : outcome (option A) thrown :=
  match p with
  | Resolved v => Resolved (Some v)
  | Rejected _ => Resolved None
  end.

(** [p.catch(() => [])]. *)
Definition catch_empty {A : Type} (p : outcome (list A) thrown)
  : outcome (list A) thrown :=
  match p with
  | Resolved v => Resolved v
  | Rejected _ => Resolved []
  end.

End Aggregate.

(** *** The trades page *)

Module TradesPage.
Import JS Aggregate.

Section Page.

(** The row and statistics types of [lib/types]. *)
Context {Trade TradeStats : Type}.

Record PaginatedTrades : Type := mkPaginatedTrades {
  items : list Trade;
  total : Z;
  page : Z;
  page_size : Z;
  pages : Z
}.

Record TradesData : Type := mkTradesData {
  trades : PaginatedTrades;
  stats : option TradeStats
}.

(** The object literal of the [catch] block. *)
Definition fallback : TradesData :=
  {| trades := {| items := []; total := 0; page := 1; page_size := 20; pages := 1 |};
     stats := None |}.

(** The two calls [fetchTrades(page)] makes. *)
Definition fetchTrades_calls (page : num) : list Api.Request :=
  [ Api.tradesApi.list
      {| Api.t_page := Some page; Api.t_page_size := Some (Int 20);
         Api.t_ticker := None |};
    Api.tradesApi.getStats ].

(** [fetchTrades]: the promise it returns, by how its two calls settle. *)
Definition fetchTrades
  (list_settled : outcome PaginatedTrades thrown)
  (getStats_settled : outcome TradeStats thrown)
  : outcome TradesData thrown :=
  match Promise_all2 list_settled getStats_settled with
  | Resolved (trades, stats) =>
      Resolved {| trades := trades; stats := Some stats |}
  | Rejected _ => Resolved fallback
  end.




Definition href (page : string) : string := "/trades?page=" +++ page.

(** What the table shows in place of its rows when there are none. *)
Definition empty_text (trades : PaginatedTrades) : option string :=
  match items trades with
  | [] => Some "No trades executed yet"
  | _ :: _ => None
  end.

(** The claim that the two sources of the page degrade one by one: a
    source that answered is shown, whatever the other did. *)
Definition degrades_independently : Prop :=
  forall (list_settled : outcome PaginatedTrades thrown)
         (getStats_settled : outcome TradeStats thrown) (d : TradesData),
    fetchTrades list_settled getStats_settled = Resolved d ->
    (forall v, list_settled = Resolved v -> trades d = v)
    /\ (forall v, getStats_settled = Resolved v -> stats d = Some v).

End Page.

Arguments PaginatedTrades Trade : clear implicits.
Arguments TradesData Trade TradeStats : clear implicits.

End TradesPage.

(** *** The dashboard *)

Module Dashboard.
Import JS Aggregate.

Section Client.

Context {SystemStats TradeStats TradeSignal Politician ActionStatus : Type}.

Record DashboardData : Type := mkDashboardData {
  stats : option SystemStats;
  tradeStats : option TradeStats;
  pendingSignals : list TradeSignal;
  politicians : list Politician;
  actionStatus : option ActionStatus
}.

(** [Promise.all] of the five promises of the dashboard. *)
Definition Promise_all5 {A B C D E : Type}
  (a : outcome A thrown) (b : outcome B thrown) (c : outcome C thrown)
  (d : outcome D thrown) (e : outcome E thrown)
  : outcome (A * B * C * D * E) thrown :=
  match Promise_all2 (Promise_all2 (Promise_all2 (Promise_all2 a b) c) d) e with
  | Resolved v => Resolved v
  | Rejected r => Rejected r
  end.

(** [fetchDashboardData]: the promise it returns, by how its five calls
    settle. *)
Definition fetchDashboardData
  (getStats_settled : outcome SystemStats thrown)
  (tradeStats_settled : outcome TradeStats thrown)
  (getPending_settled : outcome (list TradeSignal) thrown)
  (politicians_settled : outcome (list Politician) thrown)
  (getStatus_settled : outcome ActionStatus thrown)
  : outcome DashboardData thrown :=
  match Promise_all5
          (catch_null getStats_settled)
          (catch_null tradeStats_settled)
          (catch_empty getPending_settled)
          (catch_empty politicians_settled)
          (catch_null getStatus_settled) with
  | Resolved (stats, tradeStats, pendingSignals, politicians, actionStatus) =>
      Resolved {| stats := stats; tradeStats := tradeStats;
                  pendingSignals := pendingSignals;
                  politicians := politicians;
                  actionStatus := actionStatus |}
  | Rejected r => Rejected r
  end.

(** What one source contributes to the view, whatever the others do. *)
Definition or_null {A : Type} (p : outcome A thrown) : option A :=
  match p with
  | Resolved v => Some v
  | Rejected _ => None
  end.

Definition or_empty {A : Type} (p : outcome (list A) thrown) : list A :=
  match p with
  | Resolved v => v
  | Rejected _ => []
  end.

(** An event of the hook as the dashboard uses it: what settles is a call
    of [fetchDashboardData]. *)
Definition from_fetchDashboardData (ev : Polling.Event DashboardData) : Prop :=
  match ev with
  | Polling.Settle _ o _ =>
      exists a b c d e, o = fetchDashboardData a b c d e
  | _ => True
  end.

End Client.

Arguments DashboardData SystemStats TradeStats TradeSignal Politician ActionStatus
  : clear implicits.

End Dashboard.

(** *** The portfolio page *)

Module PortfolioPage.
Import JS Aggregate.

Section Page.

Context {Position AccountSummary : Type}.

Record PortfolioData : Type := mkPortfolioData {
  positions : list Position;
  summary : option AccountSummary;
  error : option string
}.

(** [fetchPortfolio]: the promise it returns, by how its two calls
    settle. *)
Definition fetchPortfolio
  (getPositions_settled : outcome (list Position) thrown)
  (getSummary_settled : outcome AccountSummary thrown)
  : outcome PortfolioData thrown :=
  match Promise_all2 getPositions_settled getSummary_settled with
  | Resolved (positions, summary) =>
      Resolved {| positions := positions; summary := Some summary;
                  error := None |}
  | Rejected err =>
      Resolved {| positions := []; summary := None;
                  error := Some (String_thrown err) |}
  end.

(** [{error && (...)}]: the warning card. *)
Definition shows_warning (d : PortfolioData) : bool :=
  match error d with
  | Some e => negb (String.eqb e "")
  | None => false
  end.

(** What the table shows in place of its rows when there are none. *)
Definition empty_text (d : PortfolioData) : option string :=
  match positions d with
  | [] =>
      Some (if shows_warning d then "Portfolio data unavailable"
            else "No open positions")
  | _ :: _ => None
  end.

End Page.

Arguments PortfolioData Position AccountSummary : clear implicits.

(** A rejection with an [Error] that has a name, as the gateway's are. *)
Definition named_failure (err : thrown) : Prop :=
  match err with
  | ThrownError e => name e <> ""
  | ThrownOther _ => False
  end.

End PortfolioPage.

(** ** [ui/components/ControlPanel.tsx] *)

Module ControlPanel.
Import JS.

(** The first argument of [handleAction]. *)
Inductive ActionName : Type :=
| scrape
| trade
| cycle.

Record ActionStatus : Type := mkActionStatus {
  scraper_running : bool;
  trader_running : bool
}.

Inductive MessageType : Type :=
| success
| error.

Record Message : Type := mkMessage {
  type : MessageType;
  text : string
}.

(** What the trigger endpoints answer. *)
Record TriggerResult : Type := mkTriggerResult {
  result_success : bool;
  result_message : string;
  task_id : option string
}.

(** The props and the two state cells of the panel, and around them the
    calls in flight, the timers set by [setTimeout(onActionComplete, 1000)]
    that have not fired, the calls made and the calls of
    [onActionComplete]. *)
Record State : Type := mkState {
  actionStatus : option ActionStatus;
  loading : option ActionName;
  message : option Message;
  next_ticket : nat;
  pending : list (nat * ActionName);
  timers : nat;
  calls : list Api.Request;
  completions : nat
}.

(** [actionStatus?.scraper_running ?? false] and its siblings. *)
Definition scraperRunning (s : State) : bool :=
  match actionStatus s with
  | Some st => scraper_running st
  | None => false
  end.

Definition traderRunning (s : State) : bool :=
  match actionStatus s with
  | Some st => trader_running st
  | None => false
  end.

Definition anyRunning (s : State) : bool :=
  scraperRunning s || traderRunning s.

Definition is_loading (s : State) : bool :=
  match loading s with
  | Some _ => true
  | None => false
  end.

(** The [disabled] attribute of the three buttons. *)
Definition disabled (a : ActionName) (s : State) : bool :=
  match a with
  | scrape => is_loading s || scraperRunning s
  | trade => is_loading s || traderRunning s
  | cycle => is_loading s || anyRunning s
  end.

(** The [apiCall] each button passes. *)
Definition apiCall (a : ActionName) : Api.Request :=
  match a with
  | scrape => Api.actionsApi.triggerScrape
  | trade => Api.actionsApi.triggerTrade
  | cycle => Api.actionsApi.triggerFullCycle
  end.

(** [handleAction] up to its [await]. *)
Definition handleAction (a : ActionName) (s : State) : State :=
  {| actionStatus := actionStatus s;
     loading := Some a;
     message := None;
     next_ticket := S (next_ticket s);
     pending := pending s ++ [(next_ticket s, a)];
     timers := timers s;
     calls := calls s ++ [apiCall a];
     completions := completions s |}.

(** [error instanceof Error ? error.message : "Action failed"]. *)
Definition failure_text (err : thrown) : string :=
  match err with
  | ThrownError e => JS.message e
  | ThrownOther _ => "Action failed"
  end.

(** [handleAction] from the moment its call settles. *)
Definition resume (o : outcome TriggerResult thrown) (s : State) : State :=
  match o with
  | Resolved result =>
      {| actionStatus := actionStatus s;
         loading := None;
         message := Some {| type := success; text := result_message result |};
         next_ticket := next_ticket s;
         pending := pending s;
         timers := S (timers s);
         calls := calls s;
         completions := completions s |}
  | Rejected err =>
      {| actionStatus := actionStatus s;
         loading := None;
         message := Some {| type := error; text := failure_text err |};
         next_ticket := next_ticket s;
         pending := pending s;
         timers := timers s;
         calls := calls s;
         completions := completions s |}
  end.

Inductive Event : Type :=
| Click (a : ActionName)
| Settled (ticket : nat) (o : outcome TriggerResult thrown)
| TimerFires
| Rendered (props : option ActionStatus).

Definition set_pending (l : list (nat * ActionName)) (s : State) : State :=
  {| actionStatus := actionStatus s; loading := loading s;
     message := message s; next_ticket := next_ticket s;
     pending := l; timers := timers s; calls := calls s;
     completions := completions s |}.

Definition step (s : State) (ev : Event) : State :=
  match ev with
  | Click a => if disabled a s then s else handleAction a s
  | Settled ticket o =>
      if existsb (fun ta => Nat.eqb ticket (fst ta)) (pending s)
      then resume o
             (set_pending
                (filter (fun ta => negb (Nat.eqb ticket (fst ta))) (pending s)) s)
      else s
  | TimerFires =>
      match timers s with
      | O => s
      | S n =>
          {| actionStatus := actionStatus s; loading := loading s;
             message := message s; next_ticket := next_ticket s;
             pending := pending s; timers := n; calls := calls s;
             completions := S (completions s) |}
      end
  | Rendered props =>
      {| actionStatus := props; loading := loading s;
         message := message s; next_ticket := next_ticket s;
         pending := pending s; timers := timers s; calls := calls s;
         completions := completions s |}
  end.

Definition run (s : State) (tr : list Event) : State := fold_left step tr s.

(** The panel at its first render. *)
Definition first_render (props : option ActionStatus) : State :=
  {| actionStatus := props; loading := None; message := None;
     next_ticket := 0; pending := []; timers := 0; calls := [];
     completions := 0 |}.

(** The panel is idle, or waits for one call and names it in [loading]. *)
Definition one_at_a_time (s : State) : Prop :=
  (pending s = [] /\ loading s = None)
  \/ exists ticket a, pending s = [(ticket, a)] /\ loading s = Some a.

End ControlPanel.


(** ** Runs of the program used below *)

Module Scenario.
Import JS.

(** A server error whose body is the JSON value [null]. *)
Definition null_body : Api.Response :=
  {| Api.resp_status := 500; Api.resp_json := Some JNull |}.

(** A slow first fetch overtaken by the fetch of the next interval tick. *)
Definition overtaken : list (Polling.Event string) :=
  [ Polling.InitialRun;
    Polling.IntervalTick;
    Polling.Settle 2 (Resolved "fresh") 31000;
    Polling.Settle 1 (Resolved "stale") 32000 ].

Definition overtaken_end : Polling.Engine string :=
  {| Polling.state :=
       {| Polling.data := Some "stale"; Polling.error := None;
          Polling.isLoading := false; Polling.isRefreshing := false;
          Polling.lastUpdated := Some 32000 |};
     Polling.issued := 2;
     Polling.in_flight := [] |}.

(** A loaded table: two signals awaiting confirmation, one executed. *)
Definition signal (i : Z) (st : string) : SignalsClient.TradeSignal :=
  {| SignalsClient.id := Some i;
     SignalsClient.ticker := "AAPL";
     SignalsClient.trade_type := "purchase";
     SignalsClient.status := Some st;
     SignalsClient.processed := false |}.

Definition snapshot : SignalsClient.PaginatedSignals :=
  {| SignalsClient.items :=
       [ signal 1 "pending_confirmation";
         signal 2 "pending_confirmation";
         signal 3 "executed" ];
     SignalsClient.total := 3;
     SignalsClient.page := 1;
     SignalsClient.page_size := 20;
     SignalsClient.pages := 1 |}.

Definition loaded : SignalsClient.State :=
  SignalsClient.step (SignalsClient.mount [])
    (SignalsClient.FetchSettled 0 (Resolved snapshot) 1000).

Definition done : SignalsClient.ActionResult :=
  {| SignalsClient.result_status := "success";
     SignalsClient.result_message := "done";
     SignalsClient.deleted_count := None |}.

Definition deleted (n : Z) : SignalsClient.ActionResult :=
  {| SignalsClient.result_status := "success";
     SignalsClient.result_message := "deleted";
     SignalsClient.deleted_count := Some n |}.

(** The third page of five of the pending signals. *)
Definition third_page : SignalsClient.PaginatedSignals :=
  {| SignalsClient.items := [ signal 41 "pending" ];
     SignalsClient.total := 81;
     SignalsClient.page := 3;
     SignalsClient.page_size := 20;
     SignalsClient.pages := 5 |}.

Definition on_third_page : SignalsClient.State :=
  SignalsClient.step
    (SignalsClient.mount [("page", "3"); ("processed", "false")])
    (SignalsClient.FetchSettled 0 (Resolved third_page) 1000).

(** The bulk delete of the processed signals, agreed to and in flight. *)
Definition clearing : SignalsClient.State :=
  SignalsClient.step loaded (SignalsClient.ClickDeleteAll true true).

Definition clearing_handler : SignalsClient.Suspended :=
  {| SignalsClient.what := SignalsClient.DeleteAll true;
     SignalsClient.captured_fetch := SignalsClient.fetchSignals [] |}.

(** A confirmation of signal 1 in flight. *)
Definition confirming : SignalsClient.State :=
  SignalsClient.step loaded (SignalsClient.Click SignalsClient.ConfirmButton 0 true).

(** The backend refuses the action. *)
Definition refused : outcome SignalsClient.ActionResult Error :=
  Rejected (Api.ApiError 500 "Execution failed").

Definition confirming_handler : SignalsClient.Suspended :=
  {| SignalsClient.what := SignalsClient.Confirm 1;
     SignalsClient.captured_fetch := SignalsClient.fetchSignals [] |}.

(** Signal 1 is being confirmed; a confirmation of signal 2 takes the
    slot; the Delete button of signal 1 works again. *)
Definition racing : list SignalsClient.Event :=
  [ SignalsClient.FetchSettled 0 (Resolved snapshot) 1000;
    SignalsClient.Click SignalsClient.ConfirmButton 0 true;
    SignalsClient.Click SignalsClient.ConfirmButton 1 true;
    SignalsClient.Click SignalsClient.DeleteButton 0 true ].

(** Signals 1 and 2 are being confirmed; the confirmation of signal 1
    settles first. *)
Definition releasing : list SignalsClient.Event :=
  [ SignalsClient.FetchSettled 0 (Resolved snapshot) 1000;
    SignalsClient.Click SignalsClient.ConfirmButton 0 true;
    SignalsClient.Click SignalsClient.ConfirmButton 1 true;
    SignalsClient.ActionSettled 1 (Resolved done) ].

(** The user hammers on the buttons of signal 1. *)
Definition hammering : list SignalsClient.Event :=
  [ SignalsClient.FetchSettled 0 (Resolved snapshot) 1000;
    SignalsClient.Click SignalsClient.ConfirmButton 0 true;
    SignalsClient.Click SignalsClient.DeleteButton 0 true;
    SignalsClient.Click SignalsClient.RejectButton 0 true;
    SignalsClient.IntervalTick;
    SignalsClient.Click SignalsClient.ConfirmButton 0 true ].

(** The first page of 25 trades, the rows being their tickers. *)
Definition first_trades : TradesPage.PaginatedTrades string :=
  {| TradesPage.items := ["AAPL"; "MSFT"; "NVDA"];
     TradesPage.total := 25;
     TradesPage.page := 1;
     TradesPage.page_size := 20;
     TradesPage.pages := 2 |}.

Definition stats_down : thrown :=
  ThrownError (Api.ApiError 500 "Internal Server Error").


(** A first fetch that fails and a refresh that succeeds after it. *)
Definition recovering : list (Polling.Event string) :=
  [ Polling.InitialRun;
    Polling.Settle 1 (Rejected (ThrownError (Api.ApiError 503 "Unknown error"))) 2000;
    Polling.ManualRefresh;
    Polling.Settle 2 (Resolved "rows") 9000 ].

Definition recovering_end : Polling.Engine string :=
  {| Polling.state :=
       {| Polling.data := Some "rows"; Polling.error := None;
          Polling.isLoading := false; Polling.isRefreshing := false;
          Polling.lastUpdated := Some 9000 |};
     Polling.issued := 2;
     Polling.in_flight := [] |}.

(** A 404 of the backend, with its [detail]. *)
Definition not_found : Api.Response :=
  {| Api.resp_status := 404;
     Api.resp_json := Some (JObj [("detail", JStr "Signal not found")]) |}.

(** A 200 with a body. *)
Definition accepted : Api.Response :=
  {| Api.resp_status := 200;
     Api.resp_json := Some (JObj [("status", JStr "success")]) |}.

(** The backend is down when the page loads; the user clicks around. *)
Definition backend_down : list SignalsClient.Event :=
  [ SignalsClient.FetchSettled 0
      (Rejected (ThrownError (TypeError "Failed to fetch"))) 1000;
    SignalsClient.ClickRefresh;
    SignalsClient.ClickDeleteAll false true;
    SignalsClient.ClickFilter (Some true);
    SignalsClient.IntervalTick ].

(** The operator starts the scraper and keeps clicking. *)
Definition impatient : list ControlPanel.Event :=
  [ ControlPanel.Click ControlPanel.scrape;
    ControlPanel.Click ControlPanel.trade;
    ControlPanel.Click ControlPanel.cycle;
    ControlPanel.Click ControlPanel.scrape ].

Definition scraper_busy : ControlPanel.State :=
  ControlPanel.first_render
    (Some {| ControlPanel.scraper_running := true;
             ControlPanel.trader_running := false |}).

(** The dashboard polls while the statistics endpoint is down. *)
Definition degraded : outcome (Dashboard.DashboardData Z Z string string bool) thrown :=
  Dashboard.fetchDashboardData
    (Rejected stats_down) (Resolved 12) (Resolved ["AAPL"])
    (Resolved ["Nancy Pelosi"]) (Rejected stats_down).

Definition degraded_poll
  : list (Polling.Event (Dashboard.DashboardData Z Z string string bool)) :=
  [ Polling.InitialRun; Polling.Settle 1 degraded 1500 ].

Definition degraded_end
  : Polling.Engine (Dashboard.DashboardData Z Z string string bool) :=
  {| Polling.state :=
       {| Polling.data :=
            Some {| Dashboard.stats := None;
                    Dashboard.tradeStats := Some 12;
                    Dashboard.pendingSignals := ["AAPL"];
                    Dashboard.politicians := ["Nancy Pelosi"];
                    Dashboard.actionStatus := None |};
          Polling.error := None;
          Polling.isLoading := false;
          Polling.isRefreshing := false;
          Polling.lastUpdated := Some 1500 |};
     Polling.issued := 1;
     Polling.in_flight := [] |}.


(** The broker is not configured: the positions call fails. *)
Definition broker_down : outcome (list string) thrown :=
  Rejected (ThrownError (Api.ApiError 503 "Trading212 not configured")).

Definition summary_ok : outcome Z thrown := Resolved 1000.


(** The first fetch of the page resolves with the snapshot. *)
Definition loading_done : list SignalsClient.Event :=
  [ SignalsClient.FetchSettled 0 (Resolved snapshot) 1000 ].

End Scenario.

(** * Properties *)

(** ** The model on small inputs *)

Section Examples.
Import JS.

Example parseInt_digits : parseInt "3" = Int 3.
Proof. reflexivity. Qed.

Example parseInt_prefix : parseInt "  42px" = Int 42.
Proof. reflexivity. Qed.

Example parseInt_negative : parseInt "-7" = Int (-7).
Proof. reflexivity. Qed.

Example parseInt_hex : parseInt "0x1f" = Int 31.
Proof. reflexivity. Qed.

Example parseInt_no_digit : parseInt "abc" = NaN.
Proof. reflexivity. Qed.

Example toString_pairs :
  toString [("page", "2"); ("processed", "false")] = "page=2&processed=false".
Proof. reflexivity. Qed.

Example toString_escapes : toString [("q", "a b&c")] = "q=a+b%26c".
Proof. reflexivity. Qed.

Example set_overwrites :
  set "page" "2" [("page", "1"); ("processed", "true"); ("page", "9")]
  = [("page", "2"); ("processed", "true")].
Proof. reflexivity. Qed.

Example ToString_array :
  ToString (JArr [JNum 1; JNull; JStr "x"; JObj []]) = "1,,x,[object Object]".
Proof. reflexivity. Qed.

Example request_not_found :
  Api.request
    (Api.Responded
       (Api.mkResponse 404 (Some (JObj [("detail", JStr "Signal not found")]))))
  = Rejected (Api.ApiError 404 "Signal not found").
Proof. reflexivity. Qed.

Example request_empty_object :
  Api.request (Api.Responded (Api.mkResponse 502 (Some (JObj []))))
  = Rejected (Api.ApiError 502 "Request failed").
Proof. reflexivity. Qed.

Example request_html_body :
  Api.request (Api.Responded (Api.mkResponse 503 None))
  = Rejected (Api.ApiError 503 "Unknown error").
Proof. reflexivity. Qed.

Example request_success :
  Api.request (Api.Responded (Api.mkResponse 200 (Some (JObj []))))
  = Resolved (JObj []).
Proof. reflexivity. Qed.

Example setFilter_href_processed :
  SignalsClient.setFilter_href (Some "true") = "/signals?processed=true".
Proof. reflexivity. Qed.

Example setFilter_href_all : SignalsClient.setFilter_href None = "/signals".
Proof. reflexivity. Qed.

Example goto_page_href_next :
  SignalsClient.goto_page_href 4 (Some false) = "/signals?page=4&processed=false".
Proof. reflexivity. Qed.

Example mount_fetches_first_page :
  SignalsClient.calls (SignalsClient.mount [])
  = [ {| Api.method := "GET"; Api.endpoint := "/api/signals?page=1&page_size=20" |} ].
Proof. reflexivity. Qed.

Example loaded_shows_table :
  SignalsClient.displayed Scenario.loaded = Some Scenario.snapshot.
Proof. reflexivity. Qed.

Example getStatusLabel_legacy :
  SignalsClient.getStatusLabel
    {| SignalsClient.id := Some 7; SignalsClient.ticker := "TSLA";
       SignalsClient.trade_type := "sale"; SignalsClient.status := None;
       SignalsClient.processed := true |}
  = "Executed".
Proof. reflexivity. Qed.

Example fetchTrades_calls_second_page :
  map Api.endpoint (TradesPage.fetchTrades_calls (Int 2))
  = ["/api/trades?page=2&page_size=20"; "/api/trades/stats"].
Proof. reflexivity. Qed.

End Examples.

(** ** The request gateway *)

Section Gateway.
Import JS Api.

Lemma ok_false_iff (r : Response) :
  ok r = false <-> resp_status r < 200 \/ 299 < resp_status r.
Proof.
  unfold ok. rewrite andb_false_iff, Z.leb_gt, Z.leb_gt. tauto.
Qed.

(** A body that is not JSON gives the default message. *)
Lemma request_unparseable_body (st : Z) :
  ok (mkResponse st None) = false ->
  request (Responded (mkResponse st None)) = Rejected (ApiError st "Unknown error").
Proof.
  intros Hok. unfold request. rewrite Hok. reflexivity.
Qed.

(** A JSON object with a non-empty string [detail] gives that message. *)
Lemma request_detail_message (st : Z) (fields : list (string * json)) (d : string) :
  ok (mkResponse st (Some (JObj fields))) = false ->
  assoc "detail" fields = Some (JStr d) ->
  d <> "" ->
  request (Responded (mkResponse st (Some (JObj fields)))) = Rejected (ApiError st d).
Proof.
  intros Hok Hd Hne. unfold request. rewrite Hok. cbn.
  rewrite Hd. cbn.
  destruct (String.eqb_spec d ""); [contradiction | reflexivity].
Qed.


(** No response at all: a [TypeError], which has no status. *)
Lemma request_network_failure (msg : string) :
  request (NetworkFailure msg) = Rejected (TypeError msg)
  /\ status (TypeError msg) = None
  /\ forall st m, TypeError msg <> ApiError st m.
Proof.
  repeat split. intros st m H. discriminate H.
Qed.

(** C7: on a non-success status the gateway means to throw an [ApiError]
    with the response status; on the response [500] with body [null] the
    property access [error.detail] throws instead, and the caller gets a
    [TypeError] without status, the shape of a network failure. *)
Theorem request_null_body_loses_status :
  ok Scenario.null_body = false
  /\ resp_status Scenario.null_body = 500
  /\ request (Responded Scenario.null_body)
     = Rejected (TypeError null_access_message)
  /\ status (TypeError null_access_message) = None
  /\ request (Responded Scenario.null_body)
     = request (NetworkFailure null_access_message).
Proof.
  repeat split.
Qed.

(** C10: [signalsApi.list] sends [processed] whenever it is defined, also
    when it is [false]; it leaves out [page] and [page_size] when they are
    absent or [0]: page 0 is requested with no [page] parameter. *)
Theorem list_query_truthiness :
  (forall pg ps b,
      get "processed"
        (list_searchParams
           (Some {| page := pg; page_size := ps; processed := Some b |}))
      = Some (String_bool b))
  /\ (forall ps pr,
         get "page"
           (list_searchParams
              (Some {| page := None; page_size := ps; processed := pr |})) = None
         /\ get "page"
              (list_searchParams
                 (Some {| page := Some (Int 0); page_size := ps; processed := pr |})) = None)
  /\ (forall pg pr,
         get "page_size"
           (list_searchParams
              (Some {| page := pg; page_size := None; processed := pr |})) = None
         /\ get "page_size"
              (list_searchParams
                 (Some {| page := pg; page_size := Some (Int 0); processed := pr |})) = None)
  /\ list_searchParams None = []
  /\ endpoint
       (signalsApi.list
          (Some {| page := Some (Int 0); page_size := Some (Int 20);
                   processed := Some false |}))
     = "/api/signals?page_size=20&processed=false"
  /\ endpoint
       (signalsApi.list
          (Some {| page := Some (Int 2); page_size := Some (Int 20);
                   processed := None |}))
     = "/api/signals?page=2&page_size=20".
Proof.
  split; [| split; [| split; [| split; [| split]]]].
  - intros pg ps b. unfold list_searchParams, field. cbn.
    destruct (opt_truthy pg), (opt_truthy ps); destruct pg, ps; reflexivity.
  - intros ps pr. unfold list_searchParams, field. cbn.
    split; destruct (opt_truthy ps); destruct ps, pr; reflexivity.
  - intros pg pr. unfold list_searchParams, field. cbn.
    split; destruct (opt_truthy pg); destruct pg, pr; reflexivity.
  - reflexivity.
  - vm_compute. reflexivity.
  - vm_compute. reflexivity.
Qed.

End Gateway.

(** ** The polling hook *)

Section PollingFacts.
Import JS Polling.

Context {T : Type}.

Lemma last_completed_cons (x : nat * T) (l : list (nat * T)) :
  last_completed (x :: l)
  = match last_completed l with
    | Some v => Some v
    | None => Some (snd x)
    end.
Proof.
  unfold last_completed. cbn [rev].
  destruct (rev l) as [| [n v] r]; destruct x; reflexivity.
Qed.

Lemma invoke_data (isInitial : bool) (e : Engine T) :
  data (state (invoke isInitial e)) = data (state e).
Proof. destruct isInitial; reflexivity. Qed.

Lemma step_data (enabled : bool) (e e' : Engine T) (ev : Event T) :
  step enabled e ev = Some e' ->
  data (state e')
  = match ev with
    | Settle _ (Resolved v) _ => Some v
    | _ => data (state e)
    end.
Proof.
  destruct ev as [ | | | seq o now]; cbn.
  - intros [= <-]. apply invoke_data.
  - destruct enabled; [intros [= <-]; apply invoke_data | discriminate].
  - intros [= <-]. apply invoke_data.
  - destruct (existsb (Nat.eqb seq) (in_flight e)); [| discriminate].
    intros [= <-]. destruct o; reflexivity.
Qed.

Lemma run_data (enabled : bool) (tr : list (Event T)) :
  forall e0 e : Engine T,
    run enabled e0 tr = Some e ->
    data (state e)
    = match last_completed (resolved_completions tr) with
      | Some v => Some v
      | None => data (state e0)
      end.
Proof.
  induction tr as [| ev rest IH]; intros e0 e Hrun.
  - cbn in Hrun. injection Hrun as <-. reflexivity.
  - cbn [run] in Hrun.
    destruct (step enabled e0 ev) as [e1 |] eqn:Hstep; [| discriminate].
    rewrite (IH _ _ Hrun), (step_data _ _ _ _ Hstep).
    destruct ev as [ | | | seq [v | err] now]; cbn [resolved_completions];
      try reflexivity.
    rewrite last_completed_cons.
    destruct (last_completed (resolved_completions rest)); reflexivity.
Qed.

(** C1, as the hook has it: the hook does not number its fetches and has no
    guard on completions.  Every completion that resolves overwrites [data],
    whatever its place among the invocations, so after any run the data on
    screen is the result of the fetch that resolved last (none before the
    first). *)
Theorem last_completion_wins (enabled : bool) :
  (forall (tr : list (Event T)) (e : Engine T),
      run enabled first_render tr = Some e ->
      data (state e) = last_completed (resolved_completions tr))
  /\ (forall (e e' : Engine T) (seq : nat) (v : T) (now : Date),
         step enabled e (Settle seq (Resolved v) now) = Some e' ->
         data (state e') = Some v).
Proof.
  split.
  - intros tr e Hrun. rewrite (run_data _ _ _ _ Hrun).
    destruct (last_completed (resolved_completions tr)); reflexivity.
  - intros e e' seq v now Hstep. apply (step_data _ _ _ _ Hstep).
Qed.

(** C2: when [fetchFn] rejects, [data] and [lastUpdated] stay as they were
    before the fetch, [error] is the failure (the rejection itself when it
    is an [Error], an [Error] saying "Failed to fetch" otherwise), and both
    flags are cleared. *)
Theorem failed_fetch_keeps_data
  (s : PollState T) (isInitial : bool) (err : thrown) (now : Date) :
  data (fetchData_settled (Rejected err) now (fetchData_call isInitial s))
  = data s
  /\ lastUpdated (fetchData_settled (Rejected err) now (fetchData_call isInitial s))
     = lastUpdated s
  /\ error (fetchData_settled (Rejected err) now (fetchData_call isInitial s))
     = Some (as_Error err)
  /\ (forall e : Error, as_Error (ThrownError e) = e)
  /\ isLoading (fetchData_settled (Rejected err) now (fetchData_call isInitial s))
     = false
  /\ isRefreshing (fetchData_settled (Rejected err) now (fetchData_call isInitial s))
     = false
  /\ data (fetchData_settled (Rejected err) now s) = data s
  /\ lastUpdated (fetchData_settled (Rejected err) now s) = lastUpdated s.
Proof.
  destruct isInitial; cbn; repeat split.
Qed.

End PollingFacts.

(** C1 fails on the hook: the first fetch resolves after the second one and
    its result replaces the newer one on screen. *)
Lemma stale_fetch_overwrites_newer :
  Polling.run true Polling.first_render Scenario.overtaken
  = Some Scenario.overtaken_end
  /\ Polling.highest_issued (Polling.resolved_completions Scenario.overtaken)
     = Some (2%nat, "fresh")
  /\ Polling.data (Polling.state Scenario.overtaken_end) = Some "stale"
  /\ ~ Polling.newest_issued_wins (T := string) true
  /\ ~ Polling.stale_completion_discarded (T := string) true.
Proof.
  assert (Hrun : Polling.run true Polling.first_render Scenario.overtaken
                 = Some Scenario.overtaken_end) by reflexivity.
  repeat split.
  - intros H. specialize (H Scenario.overtaken Scenario.overtaken_end 2%nat "fresh" Hrun eq_refl).
    discriminate H.
  - intros H.
    specialize (H (Polling.invoke false (Polling.invoke true Polling.first_render))
                  _ 1%nat (JS.Resolved "stale") 32000 eq_refl).
    cbn in H. assert (Hne : 1%nat <> 2%nat) by discriminate.
    specialize (H Hne). discriminate H.
Qed.

Lemma last_completion_wins_witness :
  Polling.data (Polling.state Scenario.overtaken_end)
  = Polling.last_completed (Polling.resolved_completions Scenario.overtaken).
Proof.
  apply (proj1 (last_completion_wins true)
           Scenario.overtaken Scenario.overtaken_end).
  reflexivity.
Defined.

(** ** The signals table *)

Section SignalsFacts.
Import JS SignalsClient.

(** *** What each state change leaves alone *)

Lemma fetchData_fields (isInitial : bool) (fetchFn : Api.Request) (s : State) :
  location (fetchData isInitial fetchFn s) = location s
  /\ actionLoading (fetchData isInitial fetchFn s) = actionLoading s
  /\ actions (fetchData isInitial fetchFn s) = actions s
  /\ log (fetchData isInitial fetchFn s) = log s ++ [Net fetchFn]
  /\ fetches (fetchData isInitial fetchFn s) = next_ticket s :: fetches s
  /\ Polling.data (poll (fetchData isInitial fetchFn s)) = Polling.data (poll s).
Proof. destruct isInitial; repeat split. Qed.

Lemma navigate_fields (params : URLSearchParams) (s : State) :
  location (navigate params s) = params
  /\ actionLoading (navigate params s) = actionLoading s
  /\ actions (navigate params s) = actions s
  /\ Polling.data (poll (navigate params s)) = Polling.data (poll s).
Proof.
  unfold navigate.
  destruct (num_eqb _ _ && filter_eqb _ _); repeat split.
Qed.

Lemma await_fields (a : Action) (s : State) :
  location (await a s) = location s
  /\ poll (await a s) = poll s
  /\ actionLoading (await a s) = actionLoading s
  /\ fetches (await a s) = fetches s
  /\ actions (await a s)
     = actions s ++ [(next_ticket s, mkSuspended a (fetchSignals (location s)))]
  /\ log (await a s) = log s ++ [Net (request_of a)].
Proof. repeat split. Qed.

(** Only the completion of a fetch writes [data]. *)
Lemma step_data_single_writer (s : State) (ev : Event) :
  (forall ticket o now, ev <> FetchSettled ticket o now) ->
  Polling.data (poll (step s ev)) = Polling.data (poll s).
Proof.
  intros Hev. destruct ev as [ | | ticket o now | b row answer | po answer
                             | ticket o | value | | ]; cbn [step].
  - apply fetchData_fields.
  - destruct (displayed s); [| reflexivity].
    destruct (Polling.isRefreshing (poll s)); [reflexivity |].
    apply fetchData_fields.
  - exfalso. exact (Hev ticket o now eq_refl).
  - destruct (onClick s b row) as [i |]; [| reflexivity].
    destruct b; [reflexivity | reflexivity |].
    unfold handleDelete. destruct answer; reflexivity.
  - destruct (displayed s); [| reflexivity].
    unfold handleDeleteAll. destruct answer; reflexivity.
  - destruct (lookup ticket (actions s)) as [k |]; [| reflexivity].
    unfold resume. destruct (what k), o; cbn; try reflexivity;
      destruct (Polling.isLoading _); reflexivity.
  - destruct (displayed s); [| reflexivity]. apply navigate_fields.
  - destruct (displayed s) as [signals |]; [| reflexivity].
    destruct (_ && _); [apply navigate_fields | reflexivity].
  - destruct (displayed s) as [signals |]; [| reflexivity].
    destruct (_ && _); [apply navigate_fields | reflexivity].
Qed.

Lemma pending_confirmation_spec (signal : TradeSignal) :
  is_pending_confirmation signal = true
  <-> status signal = Some "pending_confirmation".
Proof.
  unfold is_pending_confirmation. destruct (status signal) as [st |].
  - destruct (String.eqb_spec st "pending_confirmation"); split;
      congruence.
  - split; discriminate.
Qed.

(** C5: a click on Confirm or Reject reaches its handler only on a row
    whose status is [pending_confirmation]; on a row in any other status
    the click changes nothing, so no call leaves. *)
Theorem confirm_reject_only_when_pending_confirmation
  (s : State) (b : Button) (row : nat) (answer : bool) :
  b <> DeleteButton ->
  (forall signals signal,
      displayed s = Some signals ->
      nth_error (items signals) row = Some signal ->
      status signal <> Some "pending_confirmation" ->
      step s (Click b row answer) = s
      /\ calls (step s (Click b row answer)) = calls s)
  /\ (forall i,
         onClick s b row = Some i ->
         exists signals signal,
           displayed s = Some signals
           /\ nth_error (items signals) row = Some signal
           /\ status signal = Some "pending_confirmation"
           /\ id signal = Some i).
Proof.
  intros Hb. split.
  - intros signals signal Hshown Hrow Hst.
    assert (Hno : onClick s b row = None).
    { unfold onClick. rewrite Hshown, Hrow.
      assert (Hp : is_pending_confirmation signal = false).
      { destruct (is_pending_confirmation signal) eqn:E; [| reflexivity].
        apply pending_confirmation_spec in E. contradiction. }
      destruct b; cbn; rewrite ?Hp; try reflexivity. contradiction. }
    cbn [step]. rewrite Hno. split; reflexivity.
  - intros i Hclick. unfold onClick in Hclick.
    destruct (displayed s) as [signals |]; [| discriminate].
    destruct (nth_error (items signals) row) as [signal |] eqn:Hrow;
      [| discriminate].
    exists signals, signal.
    assert (Hr : rendered b signal
                 = if is_pending_confirmation signal then truthy_id signal
                   else None).
    { destruct b; try reflexivity. contradiction. }
    rewrite Hr in Hclick.
    destruct (is_pending_confirmation signal) eqn:Hp; [| discriminate].
    apply pending_confirmation_spec in Hp.
    unfold truthy_id in Hclick.
    destruct (id signal) as [j |]; [| discriminate].
    destruct (j =? 0); [discriminate |].
    destruct (disabled (actionLoading s) j); [discriminate |].
    injection Hclick as ->. repeat split; assumption.
Qed.

Lemma confirm_reject_only_when_pending_confirmation_witness :
  step Scenario.loaded (Click ConfirmButton 2 true) = Scenario.loaded
  /\ calls (step Scenario.loaded (Click ConfirmButton 2 true))
     = calls Scenario.loaded.
Proof.
  apply (proj1 (confirm_reject_only_when_pending_confirmation
                  Scenario.loaded ConfirmButton 2 true
                  ltac:(discriminate))
           Scenario.snapshot (Scenario.signal 3 "executed")).
  - reflexivity.
  - reflexivity.
  - discriminate.
Defined.

(** C6: [handleDeleteAll] asks first; when the user declines, nothing
    leaves.  When the user agrees the one call is the bulk delete, and once
    it resolves the handler shows the [deleted_count] of the answer and
    then asks the hook for a refresh. *)
Theorem deleteAll_asks_first (s : State) (processedOnly : bool) :
  calls (step s (ClickDeleteAll processedOnly false)) = calls s
  /\ actions (step s (ClickDeleteAll processedOnly false)) = actions s
  /\ (forall signals,
         displayed s = Some signals ->
         exists question,
           log (step s (ClickDeleteAll processedOnly true))
           = log s ++ [Dialog question true;
                       Net (Api.signalsApi.deleteAll processedOnly)])
  /\ (forall ticket k result n,
         lookup ticket (actions s) = Some k ->
         what k = DeleteAll processedOnly ->
         deleted_count result = Some n ->
         let s' := step s (ActionSettled ticket (Resolved result)) in
         log s'
         = log s ++ [Alert ("Deleted " +++ string_of_Z n +++ " signals");
                     Net (captured_fetch k)]
         /\ fetches s' = next_ticket s :: fetches s
         /\ Polling.isRefreshing (poll s') = true).
Proof.
  split; [| split; [| split]].
  - cbn [step]. destruct (displayed s); [| reflexivity].
    unfold handleDeleteAll, calls. cbn. rewrite flat_map_app. cbn.
    apply app_nil_r.
  - cbn [step]. destruct (displayed s); reflexivity.
  - intros signals Hshown. cbn [step]. rewrite Hshown.
    unfold handleDeleteAll. cbn. rewrite <- app_assoc. cbn. eauto.
  - intros ticket k result n Hk Hwhat Hn. cbn [step]. rewrite Hk.
    unfold resume. rewrite Hwhat. cbn. unfold deleted_text. rewrite Hn.
    rewrite <- app_assoc. repeat split.
Qed.

Lemma deleteAll_asks_first_witness :
  log (step Scenario.clearing (ActionSettled 1 (Resolved (Scenario.deleted 5))))
  = log Scenario.clearing
      ++ [Alert ("Deleted " +++ string_of_Z 5 +++ " signals");
          Net (captured_fetch Scenario.clearing_handler)]
  /\ fetches (step Scenario.clearing
                (ActionSettled 1 (Resolved (Scenario.deleted 5))))
     = next_ticket Scenario.clearing :: fetches Scenario.clearing
  /\ Polling.isRefreshing
       (poll (step Scenario.clearing
                (ActionSettled 1 (Resolved (Scenario.deleted 5)))))
     = true.
Proof.
  apply (proj2 (proj2 (proj2 (deleteAll_asks_first Scenario.clearing true)))
           1%nat Scenario.clearing_handler (Scenario.deleted 5) 5);
    reflexivity.
Defined.

(** C4, as the handlers have it: when the call of a single-signal action
    settles, [actionLoading] is reset to [null] on both paths and [data] is
    left alone.  The refresh sits in the [try] block after the [await]: it
    is requested when the call resolves; when the call rejects the error is
    logged and no fetch is made. *)
Theorem action_settles_lock_released
  (s : State) (ticket : nat) (k : Suspended) (i : Z) :
  lookup ticket (actions s) = Some k ->
  target (what k) = Some i ->
  (forall o,
      actionLoading (step s (ActionSettled ticket o)) = None
      /\ Polling.data (poll (step s (ActionSettled ticket o)))
         = Polling.data (poll s))
  /\ (forall result,
         let s' := step s (ActionSettled ticket (Resolved result)) in
         log s' = log s ++ [Net (captured_fetch k)]
         /\ fetches s' = next_ticket s :: fetches s
         /\ Polling.isRefreshing (poll s') = true)
  /\ (forall e,
         let s' := step s (ActionSettled ticket (Rejected e)) in
         log s' = log s ++ [ConsoleError (failure_text (what k)) e]
         /\ fetches s' = fetches s
         /\ poll s' = poll s).
Proof.
  intros Hk Hi. split; [| split].
  - intros o. split.
    + cbn [step]. rewrite Hk. unfold resume.
      destruct (what k); try discriminate; reflexivity.
    + apply step_data_single_writer. discriminate.
  - intros result. cbn [step]. rewrite Hk. unfold resume.
    destruct (what k); try discriminate; repeat split.
  - intros e. cbn [step]. rewrite Hk. unfold resume.
    destruct (what k); try discriminate; repeat split.
Qed.

Lemma action_settles_lock_released_witness :
  actionLoading (step Scenario.confirming (ActionSettled 1 Scenario.refused))
  = None
  /\ Polling.data
       (poll (step Scenario.confirming (ActionSettled 1 Scenario.refused)))
     = Polling.data (poll Scenario.confirming).
Proof.
  apply (proj1 (action_settles_lock_released Scenario.confirming 1%nat
                  Scenario.confirming_handler 1 eq_refl eq_refl)).
Defined.

(** C4 fails on the handlers: the confirmation of signal 1 is rejected with
    a 500, and no fetch is made after it. *)
Lemma failed_action_requests_no_refresh :
  lookup 1 (actions Scenario.confirming) = Some Scenario.confirming_handler
  /\ fetches (step Scenario.confirming (ActionSettled 1 Scenario.refused))
     = fetches Scenario.confirming
  /\ calls (step Scenario.confirming (ActionSettled 1 Scenario.refused))
     = calls Scenario.confirming
  /\ actionLoading (step Scenario.confirming (ActionSettled 1 Scenario.refused))
     = None
  /\ ~ refresh_whatever_the_outcome.
Proof.
  split; [reflexivity |]. split; [reflexivity |].
  split; [reflexivity |]. split; [reflexivity |].
  intros H.
  specialize (H Scenario.confirming 1%nat Scenario.confirming_handler
                Scenario.refused 1 eq_refl eq_refl).
  discriminate H.
Qed.

Lemma url_processed_goto_page (n : Z) (pr : option bool) :
  url_processed (goto_page n pr) = pr.
Proof. destruct pr as [[|]|]; reflexivity. Qed.

(** C8: [setFilter] builds its URL from nothing but the filter, so the page
    of the new location is 1 whatever it was, and the fetches made under it
    ask for page 1; Previous and Next carry the current filter over.  From
    page 3 of the pending signals, the Processed button leads to the call
    for page 1 of the processed ones. *)
Theorem filter_change_starts_at_first_page :
  (forall value,
      get "page" (setFilter value) = None
      /\ url_page (setFilter value) = Int 1)
  /\ (forall s value signals,
         displayed s = Some signals ->
         let s' := step s (ClickFilter value) in
         url_page (location s') = Int 1
         /\ url_processed (location s') = value
         /\ fetchSignals (location s')
            = Api.signalsApi.list
                (Some {| Api.page := Some (Int 1);
                         Api.page_size := Some (Int 20);
                         Api.processed := value |}))
  /\ (forall s,
         url_processed (location (step s ClickPrevious))
         = url_processed (location s)
         /\ url_processed (location (step s ClickNext))
            = url_processed (location s))
  /\ (forall n pr,
         url_processed (goto_page n pr) = pr
         /\ get "page" (goto_page n pr) = Some (string_of_Z n))
  /\ url_page (location Scenario.on_third_page) = Int 3
  /\ calls (step Scenario.on_third_page (ClickFilter (Some true)))
     = calls Scenario.on_third_page
         ++ [ {| Api.method := "GET";
                 Api.endpoint := "/api/signals?page=1&page_size=20&processed=true" |} ].
Proof.
  split; [| split; [| split; [| split; [| split]]]].
  - intros [v |]; split; reflexivity.
  - intros s value signals Hshown. cbn [step]. rewrite Hshown.
    rewrite (proj1 (navigate_fields _ s)).
    destruct value as [[|]|]; repeat split.
  - intros s. split; cbn [step];
      (destruct (displayed s) as [signals |]; [| reflexivity]);
      (destruct (_ && _); [| reflexivity]);
      rewrite (proj1 (navigate_fields _ s));
      apply url_processed_goto_page.
  - intros n pr. split; [apply url_processed_goto_page |].
    destruct pr as [[|]|]; reflexivity.
  - reflexivity.
  - vm_compute. reflexivity.
Qed.

Lemma filter_change_starts_at_first_page_witness :
  url_page (location (step Scenario.on_third_page (ClickFilter (Some true))))
  = Int 1
  /\ url_processed
       (location (step Scenario.on_third_page (ClickFilter (Some true))))
     = Some true
  /\ fetchSignals
       (location (step Scenario.on_third_page (ClickFilter (Some true))))
     = Api.signalsApi.list
         (Some {| Api.page := Some (Int 1);
                  Api.page_size := Some (Int 20);
                  Api.processed := Some true |}).
Proof.
  apply (proj1 (proj2 filter_change_starts_at_first_page)
           Scenario.on_third_page (Some true) Scenario.third_page).
  reflexivity.
Defined.

(** *** The action slot *)

Lemma serial_same (i : Z) (s s' : State) :
  actions s' = actions s ->
  actionLoading s' = actionLoading s ->
  serial i s -> serial i s'.
Proof.
  unfold serial, in_flight_single. intros -> ->. exact (fun H => H).
Qed.

(** A state change that touches neither the handlers in flight nor the
    slot keeps the invariant. *)
Ltac slot_untouched H :=
  eapply serial_same;
  [ | | exact H ];
  first [ reflexivity | apply fetchData_fields | apply navigate_fields ].

Lemma onClick_row_id (s : State) (b : Button) (row : nat) (j : Z) :
  onClick s b row = Some j ->
  row_id s row = Some j /\ disabled (actionLoading s) j = false.
Proof.
  unfold onClick, row_id.
  destruct (displayed s) as [signals |]; [| discriminate].
  destruct (nth_error (items signals) row) as [signal |]; [| discriminate].
  assert (Hr : forall k, rendered b signal = Some k -> truthy_id signal = Some k).
  { intros k. destruct b; cbn;
      try (destruct (is_pending_confirmation signal); [| discriminate]);
      exact (fun H => H). }
  destruct (rendered b signal) as [k |]; [| discriminate].
  specialize (Hr k eq_refl).
  destruct (disabled (actionLoading s) k) eqn:Hd; [discriminate |].
  intros [= <-]. split; assumption.
Qed.

Lemma lookup_In (ticket : nat) (l : list (nat * Suspended)) (k : Suspended) :
  lookup ticket l = Some k -> In (ticket, k) l.
Proof.
  induction l as [| [t k'] rest IH]; cbn; [discriminate |].
  destruct (Nat.eqb_spec ticket t) as [-> | Hne].
  - intros [= ->]. left. reflexivity.
  - intros H. right. exact (IH H).
Qed.

Lemma filter_drop (ticket : nat) (f : nat * Suspended -> bool)
  (l : list (nat * Suspended)) :
  filter f (drop ticket l) = drop ticket (filter f l).
Proof.
  unfold drop. induction l as [| x rest IH]; cbn; [reflexivity |].
  destruct (f x) eqn:Hf, (negb (ticket =? fst x)%nat) eqn:Ht; cbn;
    rewrite ?Hf, ?Ht, IH; reflexivity.
Qed.

Lemma serial_start (i : Z) (a : Action) (s : State) :
  target a = Some i ->
  disabled (actionLoading s) i = false ->
  serial i s ->
  serial i (await a (setActionLoading (Some i) s)).
Proof.
  intros Ha Hd [Hnone | (tk & _ & _ & Hslot)].
  - right. exists (next_ticket s, mkSuspended a (fetchSignals (location s))).
    unfold in_flight_single in *. cbn. rewrite filter_app, Hnone. cbn.
    unfold is_single. cbn. rewrite Ha. repeat split.
  - rewrite Hslot in Hd. cbn in Hd. rewrite Z.eqb_refl in Hd. discriminate.
Qed.

Lemma serial_settle (i : Z) (s : State) (ticket : nat)
  (o : outcome ActionResult Error) :
  serial i s -> serial i (step s (ActionSettled ticket o)).
Proof.
  intros Hs. cbn [step].
  destruct (lookup ticket (actions s)) as [k |] eqn:Hk; [| assumption].
  pose proof (lookup_In _ _ _ Hk) as Hin.
  assert (Hdrop : in_flight_single (set_actions (drop ticket (actions s)) s)
                  = drop ticket (in_flight_single s)).
  { unfold in_flight_single. cbn. apply filter_drop. }
  destruct (target (what k)) as [j |] eqn:Hj.
  - (* a single-signal action: the slot is cleared and it was the only one *)
    left.
    assert (Hsame : in_flight_single (resume k o (set_actions (drop ticket (actions s)) s))
                    = drop ticket (in_flight_single s)).
    { rewrite <- Hdrop. unfold resume, in_flight_single.
      destruct (what k), o; try discriminate; reflexivity. }
    rewrite Hsame.
    assert (Hmem : In (ticket, k) (in_flight_single s)).
    { apply filter_In. split; [assumption |]. unfold is_single. cbn.
      rewrite Hj. reflexivity. }
    destruct Hs as [Hnone | (tk & Hone & _ & _)].
    + rewrite Hnone. reflexivity.
    + rewrite Hone in Hmem |- *. destruct Hmem as [Heq | []]. subst tk.
      unfold drop. cbn. rewrite Nat.eqb_refl. reflexivity.
  - (* the bulk delete: the slot is not touched *)
    assert (Hwhat : exists po, what k = DeleteAll po).
    { destruct (what k); try discriminate. eauto. }
    destruct Hwhat as [po Hwhat].
    assert (Hact : in_flight_single (resume k o (set_actions (drop ticket (actions s)) s))
                   = drop ticket (in_flight_single s)).
    { rewrite <- Hdrop. unfold resume, in_flight_single. rewrite Hwhat.
      destruct o; reflexivity. }
    assert (Hslot : actionLoading (resume k o (set_actions (drop ticket (actions s)) s))
                    = actionLoading s).
    { unfold resume. rewrite Hwhat. destruct o; reflexivity. }
    unfold serial. rewrite Hact, Hslot.
    destruct Hs as [Hnone | (tk & Hone & Htk & Hsl)].
    + left. rewrite Hnone. reflexivity.
    + rewrite Hone. unfold drop. cbn.
      destruct (negb (ticket =? fst tk)%nat); [right; eauto | left; reflexivity].
Qed.

Lemma serial_step (i : Z) (s : State) (ev : Event) :
  clicks_only i s [ev] = true ->
  serial i s -> serial i (step s ev).
Proof.
  intros Hclicks Hs.
  destruct ev as [ | | ticket o now | b row answer | po answer
                 | ticket o | value | | ].
  - cbn [step]. slot_untouched Hs.
  - cbn [step]. destruct (displayed s); [| assumption].
    destruct (Polling.isRefreshing (poll s)); [assumption |].
    slot_untouched Hs.
  - cbn [step]. destruct (existsb _ _); [| assumption].
    slot_untouched Hs.
  - cbn [step]. destruct (onClick s b row) as [j |] eqn:Hclick; [| assumption].
    apply onClick_row_id in Hclick. destruct Hclick as [Hrow Hd].
    cbn in Hclicks. rewrite Hrow, andb_true_r in Hclicks.
    apply Z.eqb_eq in Hclicks. subst j.
    destruct b.
    + apply serial_start; [reflexivity | assumption | assumption].
    + apply serial_start; [reflexivity | assumption | assumption].
    + unfold handleDelete. destruct answer; cbn [negb].
      * apply (serial_start i (Delete i)
                 (emit (Dialog "Are you sure you want to delete this signal?" true) s));
          [reflexivity | assumption |].
        slot_untouched Hs.
      * slot_untouched Hs.
  - cbn [step]. destruct (displayed s); [| assumption].
    unfold handleDeleteAll. destruct answer; cbn [negb].
    + destruct Hs as [Hnone | (tk & Hone & Htk & Hslot)].
      * left. unfold in_flight_single in *. cbn.
        rewrite filter_app, Hnone. reflexivity.
      * right. exists tk. unfold in_flight_single in *. cbn.
        rewrite filter_app, Hone. repeat split; assumption.
    + slot_untouched Hs.
  - apply serial_settle. assumption.
  - cbn [step]. destruct (displayed s); [| assumption].
    slot_untouched Hs.
  - cbn [step]. destruct (displayed s) as [signals |]; [| assumption].
    destruct (_ && _); [| assumption].
    slot_untouched Hs.
  - cbn [step]. destruct (displayed s) as [signals |]; [| assumption].
    destruct (_ && _); [| assumption].
    slot_untouched Hs.
Qed.

Lemma serial_run (i : Z) (tr : list Event) :
  forall s, clicks_only i s tr = true -> serial i s -> serial i (run s tr).
Proof.
  induction tr as [| ev rest IH]; intros s Hclicks Hs; [assumption |].
  cbn [clicks_only] in Hclicks. apply andb_true_iff in Hclicks.
  destruct Hclicks as [Hev Hrest].
  change (run s (ev :: rest)) with (run (step s ev) rest).
  apply IH; [assumption |].
  apply serial_step; [| assumption].
  cbn [clicks_only]. rewrite Hev. reflexivity.
Qed.

Lemma filter_narrow {A : Type} (f g : A -> bool) (l : list A) :
  (forall x, f x = true -> g x = true) ->
  filter f (filter g l) = filter f l.
Proof.
  intros Himp. induction l as [| x rest IH]; cbn; [reflexivity |].
  destruct (g x) eqn:Hg; cbn.
  - rewrite IH. reflexivity.
  - destruct (f x) eqn:Hf; [| exact IH].
    apply Himp in Hf. congruence.
Qed.

Lemma serial_at_most_one (i : Z) (s : State) :
  serial i s -> (List.length (in_flight_on i s) <= 1)%nat.
Proof.
  assert (Hsub : in_flight_on i s = filter (is_on i) (in_flight_single s)).
  { unfold in_flight_on, in_flight_single. symmetry. apply filter_narrow.
    intros x. unfold is_on, is_single.
    destruct (target (what (snd x))); [reflexivity | discriminate]. }
  intros [Hnone | (tk & Hone & _ & _)]; rewrite Hsub.
  - rewrite Hnone. cbn. lia.
  - rewrite Hone. cbn. destruct (is_on i tk); cbn; lia.
Qed.

(** C3, as the component has it: the lock is the one cell [actionLoading],
    the id of the action started last, and a row's buttons are disabled
    while the cell holds the row's id.  So as long as the user acts on one
    signal only, at most one action on it is in flight, and a click on a
    signal whose id is in the cell reaches no handler.  The cell is shared:
    an action on another signal is not blocked and takes the cell over, and
    any single-signal action that settles resets the cell to [null],
    whichever id it holds. *)
Theorem action_slot_discipline :
  (forall searchParams tr i,
      clicks_only i (mount searchParams) tr = true ->
      (List.length (in_flight_on i (run (mount searchParams) tr)) <= 1)%nat)
  /\ (forall s b row answer i,
         row_id s row = Some i ->
         actionLoading s = Some i ->
         step s (Click b row answer) = s)
  /\ (forall s b row signals signal i j,
         displayed s = Some signals ->
         nth_error (items signals) row = Some signal ->
         rendered b signal = Some j ->
         actionLoading s = Some i ->
         j <> i ->
         onClick s b row = Some j)
  /\ (forall s j,
         actionLoading (handleConfirm j s) = Some j
         /\ actionLoading (handleReject j s) = Some j
         /\ actionLoading (handleDelete j true s) = Some j)
  /\ (forall s ticket k o i,
         lookup ticket (actions s) = Some k ->
         target (what k) = Some i ->
         actionLoading (step s (ActionSettled ticket o)) = None).
Proof.
  split; [| split; [| split; [| split]]].
  - intros sp tr i Hclicks. apply serial_at_most_one.
    apply serial_run; [assumption |]. left. reflexivity.
  - intros s b row answer i Hrow Hslot. cbn [step].
    destruct (onClick s b row) as [j |] eqn:Hclick; [| reflexivity].
    apply onClick_row_id in Hclick. destruct Hclick as [Hrow' Hd].
    rewrite Hrow in Hrow'. injection Hrow' as <-.
    rewrite Hslot in Hd. cbn in Hd. rewrite Z.eqb_refl in Hd. discriminate.
  - intros s b row signals signal i j Hshown Hrow Hr Hslot Hne.
    unfold onClick. rewrite Hshown, Hrow, Hr, Hslot. cbn.
    destruct (Z.eqb_spec i j); [congruence | reflexivity].
  - intros s j. repeat split.
  - intros s ticket k o i Hk Hi. cbn [step]. rewrite Hk. unfold resume.
    destruct (what k); try discriminate; reflexivity.
Qed.

Lemma action_slot_discipline_witness :
  (List.length (in_flight_on 1 (run (mount []) Scenario.hammering)) <= 1)%nat
  /\ step Scenario.confirming (Click DeleteButton 0 true) = Scenario.confirming.
Proof.
  split.
  - apply (proj1 action_slot_discipline [] Scenario.hammering 1).
    reflexivity.
  - apply (proj1 (proj2 action_slot_discipline)
             Scenario.confirming DeleteButton 0%nat true 1);
      reflexivity.
Defined.

(** C3 fails on the component.  While signal 1 is being confirmed, a
    confirmation of signal 2 takes the cell, the buttons of signal 1 work
    again and its deletion leaves as well: two actions on signal 1 are in
    flight.  And when the confirmation of signal 1 settles before that of
    signal 2, the cell is reset and signal 2 is no longer locked although
    its action is still in flight. *)
Lemma slot_shared_between_signals :
  map (fun tk => what (snd tk))
    (in_flight_on 1 (run (mount []) Scenario.racing))
  = [Confirm 1; Delete 1]
  /\ map Api.endpoint (calls (run (mount []) Scenario.racing))
     = [ "/api/signals?page=1&page_size=20";
         "/api/signals/1/confirm";
         "/api/signals/2/confirm";
         "/api/signals/1" ]
  /\ map (fun tk => what (snd tk))
       (in_flight_on 2 (run (mount []) Scenario.releasing))
     = [Confirm 2]
  /\ actionLoading (run (mount []) Scenario.releasing) = None
  /\ ~ one_action_per_signal
  /\ ~ locked_while_in_flight.
Proof.
  split; [vm_compute; reflexivity |].
  split; [vm_compute; reflexivity |].
  split; [vm_compute; reflexivity |].
  split; [vm_compute; reflexivity |].
  split.
  - intros H. specialize (H [] Scenario.racing 1).
    vm_compute in H. lia.
  - intros H. specialize (H [] Scenario.releasing 2).
    assert (Hin : in_flight_on 2 (run (mount []) Scenario.releasing) <> [])
      by (vm_compute; discriminate).
    specialize (H Hin). vm_compute in H. discriminate H.
Qed.

End SignalsFacts.

(** ** Aggregate fetches *)

Section AggregateFacts.
Import JS Aggregate.

Context {Trade TradeStats SystemStats TradeSignal Politician ActionStatus : Type}.

(** C9, as the pages have it: [fetchTrades] always resolves.  When the list
    call throws it resolves with the fallback, the empty first page of 20
    and no statistics.  Its [try] spans both calls, so the same fallback
    replaces both parts when the statistics call throws; only when both
    answer are they shown.  On the dashboard each of the five calls has its
    own [catch], and each part of the result is its own call's answer or
    that call's fallback. *)
Theorem aggregate_fetch_fallbacks :
  (forall (l : outcome (TradesPage.PaginatedTrades Trade) thrown)
          (st : outcome TradeStats thrown),
      exists d, TradesPage.fetchTrades l st = Resolved d)
  /\ (forall e (st : outcome TradeStats thrown),
         TradesPage.fetchTrades (Trade := Trade) (Rejected e) st
         = Resolved TradesPage.fallback)
  /\ TradesPage.fallback (Trade := Trade) (TradeStats := TradeStats)
     = {| TradesPage.trades :=
            {| TradesPage.items := []; TradesPage.total := 0;
               TradesPage.page := 1; TradesPage.page_size := 20;
               TradesPage.pages := 1 |};
          TradesPage.stats := None |}
  /\ (forall (l : outcome (TradesPage.PaginatedTrades Trade) thrown) e,
         TradesPage.fetchTrades (TradeStats := TradeStats) l (Rejected e)
         = Resolved TradesPage.fallback)
  /\ (forall (tv : TradesPage.PaginatedTrades Trade) (sv : TradeStats),
         TradesPage.fetchTrades (Resolved tv) (Resolved sv)
         = Resolved {| TradesPage.trades := tv; TradesPage.stats := Some sv |})
  /\ (forall (a : outcome SystemStats thrown) (b : outcome TradeStats thrown)
             (c : outcome (list TradeSignal) thrown)
             (d : outcome (list Politician) thrown)
             (e : outcome ActionStatus thrown),
         Dashboard.fetchDashboardData a b c d e
         = Resolved {| Dashboard.stats := Dashboard.or_null a;
                       Dashboard.tradeStats := Dashboard.or_null b;
                       Dashboard.pendingSignals := Dashboard.or_empty c;
                       Dashboard.politicians := Dashboard.or_empty d;
                       Dashboard.actionStatus := Dashboard.or_null e |}).
Proof.
  split; [| split; [| split; [| split; [| split]]]].
  - intros [tv | e] [sv | e']; cbn; eauto.
  - intros e st. reflexivity.
  - reflexivity.
  - intros [tv | e'] e; reflexivity.
  - intros tv sv. reflexivity.
  - intros [a | ra] [b | rb] [c | rc] [d | rd] [e | re]; reflexivity.
Qed.

End AggregateFacts.

(** C9 fails on the trades page: the list call answers, the statistics call
    throws, and the page gets the empty fallback in place of the trades
    that did arrive. *)
Lemma trades_blanked_by_failed_stats :
  TradesPage.fetchTrades (JS.Resolved Scenario.first_trades)
    (JS.Rejected (E := JS.thrown) (T := Z) Scenario.stats_down)
  = JS.Resolved TradesPage.fallback
  /\ TradesPage.items (TradesPage.trades (TradeStats := Z) TradesPage.fallback)
     <> TradesPage.items Scenario.first_trades
  /\ ~ TradesPage.degrades_independently (Trade := string) (TradeStats := Z).
Proof.
  split; [reflexivity |]. split; [discriminate |].
  intros H.
  destruct (H (JS.Resolved Scenario.first_trades)
              (JS.Rejected Scenario.stats_down)
              TradesPage.fallback eq_refl) as [Hl _].
  specialize (Hl Scenario.first_trades eq_refl). discriminate Hl.
Qed.

(** * Further properties of the code *)

(** ** Numbers through strings and back *)

Section Numerals.
Import JS.








Lemma string_of_Z_not_empty (n : Z) : string_of_Z n <> "".
Proof.
  unfold string_of_Z. destruct n as [| p | p]; cbn; try discriminate.
  pose proof (DecimalPos.Unsigned.to_uint_nonnil p) as Hne.
  destruct (Pos.to_uint p); [contradiction | discriminate ..].
Qed.

End Numerals.

(** ** Pages of the signals table *)

Section SignalsPages.
Import JS SignalsClient.









End SignalsPages.

(** ** The cells of the polling hook over a run *)

Section PollingRuns.
Import JS Polling.

Context {T : Type}.
Variable enabled : bool.

Lemma run_cell {A : Type} (f : PollState T -> A) (w : Event T -> option A) :
  (forall e e' ev,
      step enabled e ev = Some e' ->
      f (state e') = or_else (w ev) (f (state e))) ->
  forall tr e0 e,
    run enabled e0 tr = Some e ->
    f (state e) = or_else (last_write w tr) (f (state e0)).
Proof.
  intros Hstep. induction tr as [| ev rest IH]; intros e0 e Hrun.
  - cbn in Hrun. injection Hrun as <-. reflexivity.
  - cbn [run] in Hrun.
    destruct (step enabled e0 ev) as [e1 |] eqn:H1; [| discriminate].
    rewrite (IH _ _ Hrun), (Hstep _ _ _ H1). cbn [last_write].
    destruct (last_write w rest); reflexivity.
Qed.

Lemma step_lastUpdated (e e' : Engine T) (ev : Event T) :
  step enabled e ev = Some e' ->
  lastUpdated (state e')
  = or_else (writes_lastUpdated ev) (lastUpdated (state e)).
Proof.
  destruct ev as [ | | | seq o now]; cbn.
  - intros [= <-]. reflexivity.
  - destruct enabled; [intros [= <-]; reflexivity | discriminate].
  - intros [= <-]. reflexivity.
  - destruct (existsb (Nat.eqb seq) (in_flight e)); [| discriminate].
    intros [= <-]. destruct o; reflexivity.
Qed.

Lemma step_error (e e' : Engine T) (ev : Event T) :
  step enabled e ev = Some e' ->
  error (state e') = or_else (writes_error ev) (error (state e)).
Proof.
  destruct ev as [ | | | seq o now]; cbn.
  - intros [= <-]. reflexivity.
  - destruct enabled; [intros [= <-]; reflexivity | discriminate].
  - intros [= <-]. reflexivity.
  - destruct (existsb (Nat.eqb seq) (in_flight e)); [| discriminate].
    intros [= <-]. destruct o; reflexivity.
Qed.



Lemma last_write_lastUpdated_none (tr : list (Event T)) :
  last_write writes_lastUpdated tr = None <-> resolved_completions tr = [].
Proof.
  induction tr as [| ev rest IH]; [split; reflexivity |].
  cbn [last_write resolved_completions].
  destruct ev as [ | | | seq [v | err] now]; cbn [writes_lastUpdated];
    try (destruct (last_write writes_lastUpdated rest);
         [split; [discriminate | intros H; apply IH in H; discriminate]
         | split; intros _; [apply IH | ]; reflexivity]).
  destruct (last_write writes_lastUpdated rest); split; discriminate.
Qed.

Lemma last_write_lastUpdated_set (tr : list (Event T)) :
  last_write writes_lastUpdated tr <> Some None.
Proof.
  induction tr as [| ev rest IH]; [discriminate |].
  cbn [last_write].
  destruct (last_write writes_lastUpdated rest) as [x |].
  - intros [= ->]. apply IH. reflexivity.
  - destruct ev as [ | | | seq [v | err] now]; discriminate.
Qed.

Lemma run_never_updated (tr : list (Event T)) (e : Engine T) :
  run enabled first_render tr = Some e ->
  (lastUpdated (state e) = None <-> resolved_completions tr = []).
Proof.
  intros Hrun.
  rewrite (run_cell lastUpdated writes_lastUpdated step_lastUpdated
             _ _ _ Hrun).
  cbn [first_render state useState_initial lastUpdated].
  rewrite <- last_write_lastUpdated_none.
  pose proof (last_write_lastUpdated_set tr) as Hset.
  destruct (last_write writes_lastUpdated tr) as [[t |] |]; cbn;
    split; try discriminate; try reflexivity.
  contradiction.
Qed.


(** X10: [error] is the verdict on the fetch that completed last: [null] when
    it resolved (or none has completed), its failure when it rejected.  A
    later success clears an earlier error, a later failure sets it again. *)
Theorem error_is_latest_verdict (tr : list (Event T)) (e : Engine T) :
  run enabled first_render tr = Some e ->
  error (state e) = or_else (last_write writes_error tr) None.
Proof.
  intros Hrun.
  exact (run_cell error writes_error step_error _ _ _ Hrun).
Qed.

(** X11: both flags are cleared by every completion, also while other fetches
    are still in flight; so once something has happened, a flag that is
    set means that a fetch is in flight. *)
Theorem flags_cleared_by_any_completion :
  (forall (e e' : Engine T) seq o now,
      step enabled e (Settle seq o now) = Some e' ->
      isLoading (state e') = false /\ isRefreshing (state e') = false)
  /\ (forall (tr : list (Event T)) (e0 e : Engine T),
         tr <> [] ->
         run enabled e0 tr = Some e ->
         in_flight e = [] ->
         isLoading (state e) = false /\ isRefreshing (state e) = false).
Proof.
  assert (Hsettle : forall (e e' : Engine T) seq o now,
             step enabled e (Settle seq o now) = Some e' ->
             isLoading (state e') = false /\ isRefreshing (state e') = false).
  { intros e e' seq o now. cbn.
    destruct (existsb (Nat.eqb seq) (in_flight e)); [| discriminate].
    intros [= <-]. destruct o; split; reflexivity. }
  split; [exact Hsettle |].
  assert (Hstep : forall (e e' : Engine T) ev,
             step enabled e ev = Some e' ->
             in_flight e' = [] ->
             isLoading (state e') = false /\ isRefreshing (state e') = false).
  { intros e e' ev Hs Hnone. destruct ev as [ | | | seq o now].
    - cbn in Hs. injection Hs as <-. discriminate Hnone.
    - cbn in Hs. destruct enabled; [| discriminate].
      injection Hs as <-. discriminate Hnone.
    - cbn in Hs. injection Hs as <-. discriminate Hnone.
    - exact (Hsettle _ _ _ _ _ Hs). }
  induction tr as [| ev rest IH]; intros e0 e Hne Hrun Hnone;
    [contradiction |].
  cbn [run] in Hrun.
  destruct (step enabled e0 ev) as [e1 |] eqn:H1; [| discriminate].
  destruct rest as [| ev' rest'].
  - cbn in Hrun. injection Hrun as <-. exact (Hstep _ _ _ H1 Hnone).
  - apply (IH e1 e); [discriminate | exact Hrun | exact Hnone].
Qed.

End PollingRuns.


Lemma error_is_latest_verdict_witness :
  Polling.error (Polling.state Scenario.recovering_end)
  = Polling.or_else
      (Polling.last_write Polling.writes_error Scenario.recovering) None.
Proof.
  apply (error_is_latest_verdict true Scenario.recovering
           Scenario.recovering_end).
  reflexivity.
Defined.

Lemma flags_cleared_by_any_completion_witness :
  Polling.isLoading (Polling.state Scenario.recovering_end) = false
  /\ Polling.isRefreshing (Polling.state Scenario.recovering_end) = false.
Proof.
  apply (proj2 (flags_cleared_by_any_completion true)
           Scenario.recovering Polling.first_render Scenario.recovering_end).
  - discriminate.
  - reflexivity.
  - reflexivity.
Defined.

(** ** [formatRelativeTime] *)

Section RelativeTime.
Import JS Polling.

Lemma length_append (a b : string) :
  String.length (a +++ b) = (String.length a + String.length b)%nat.
Proof. induction a as [| c a IH]; cbn; [reflexivity | rewrite IH; reflexivity]. Qed.

Lemma ago_is_not_Never (n : Z) (unit : string) :
  String.length unit = 5%nat ->
  string_of_Z n +++ unit <> "Never".
Proof.
  intros Hunit Heq. apply (f_equal String.length) in Heq.
  rewrite length_append, Hunit in Heq. cbn in Heq.
  pose proof (string_of_Z_not_empty n) as Hne.
  destruct (string_of_Z n); [contradiction | cbn in Heq; lia].
Qed.

Lemma formatRelativeTime_Never (date : option num) (now : Z) :
  formatRelativeTime date now = "Never" <-> date = None.
Proof.
  split; [| intros ->; reflexivity].
  destruct date as [[| t] |]; [discriminate | | reflexivity].
  unfold formatRelativeTime. cbv zeta.
  destruct ((now - t) / 1000 <? 5); [discriminate |].
  destruct ((now - t) / 1000 <? 60);
    [intros H; exfalso; exact (ago_is_not_Never _ "s ago" eq_refl H) |].
  destruct ((now - t) / 1000 <? 3600);
    intros H; exfalso;
    [exact (ago_is_not_Never _ "m ago" eq_refl H)
    | exact (ago_is_not_Never _ "h ago" eq_refl H)].
Qed.

(** X7: what [formatRelativeTime] shows for a date [t], by the milliseconds
    elapsed: "Just now" below five seconds, also for a date in the future;
    then whole seconds from 5 to 59, whole minutes from 1 to 59, and whole
    hours from 1 on, without an upper unit. *)
Theorem formatRelativeTime_buckets (t now : Z) :
  (now - t < 5000 -> formatRelativeTime (Some (Int t)) now = "Just now")
  /\ (5000 <= now - t < 60000 ->
      formatRelativeTime (Some (Int t)) now
      = string_of_Z ((now - t) / 1000) +++ "s ago"
      /\ 5 <= (now - t) / 1000 <= 59)
  /\ (60000 <= now - t < 3600000 ->
      formatRelativeTime (Some (Int t)) now
      = string_of_Z ((now - t) / 60000) +++ "m ago"
      /\ 1 <= (now - t) / 60000 <= 59)
  /\ (3600000 <= now - t ->
      formatRelativeTime (Some (Int t)) now
      = string_of_Z ((now - t) / 3600000) +++ "h ago"
      /\ 1 <= (now - t) / 3600000).
Proof.
  set (d := now - t).
  assert (Hm : d / 1000 / 60 = d / 60000)
    by (rewrite Z.div_div by lia; reflexivity).
  assert (Hh : d / 1000 / 3600 = d / 3600000)
    by (rewrite Z.div_div by lia; reflexivity).
  unfold formatRelativeTime. cbv zeta. fold d.
  split; [| split; [| split]].
  - intros H.
    assert (Hs : d / 1000 < 5) by (apply Z.div_lt_upper_bound; lia).
    apply Z.ltb_lt in Hs. rewrite Hs. reflexivity.
  - intros [Hlo Hhi].
    assert (H5 : 5 <= d / 1000) by (apply Z.div_le_lower_bound; lia).
    assert (H60 : d / 1000 < 60) by (apply Z.div_lt_upper_bound; lia).
    assert (E5 : (d / 1000 <? 5) = false) by (apply Z.ltb_ge; lia).
    assert (E60 : (d / 1000 <? 60) = true) by (apply Z.ltb_lt; lia).
    rewrite E5, E60. split; [reflexivity | lia].
  - intros [Hlo Hhi].
    assert (H60 : 60 <= d / 1000) by (apply Z.div_le_lower_bound; lia).
    assert (H3600 : d / 1000 < 3600) by (apply Z.div_lt_upper_bound; lia).
    assert (E5 : (d / 1000 <? 5) = false) by (apply Z.ltb_ge; lia).
    assert (E60 : (d / 1000 <? 60) = false) by (apply Z.ltb_ge; lia).
    assert (E3600 : (d / 1000 <? 3600) = true) by (apply Z.ltb_lt; lia).
    rewrite E5, E60, E3600, Hm. split; [reflexivity |].
    split; [apply Z.div_le_lower_bound; lia |].
    assert (d / 60000 < 60) by (apply Z.div_lt_upper_bound; lia). lia.
  - intros Hlo.
    assert (H3600 : 3600 <= d / 1000) by (apply Z.div_le_lower_bound; lia).
    assert (E5 : (d / 1000 <? 5) = false) by (apply Z.ltb_ge; lia).
    assert (E60 : (d / 1000 <? 60) = false) by (apply Z.ltb_ge; lia).
    assert (E3600 : (d / 1000 <? 3600) = false) by (apply Z.ltb_ge; lia).
    rewrite E5, E60, E3600, Hh. split; [reflexivity |].
    apply Z.div_le_lower_bound; lia.
Qed.

Lemma formatRelativeTime_buckets_witness :
  formatRelativeTime (Some (Int 1000)) 125999
  = string_of_Z ((125999 - 1000) / 60000) +++ "m ago"
  /\ 1 <= (125999 - 1000) / 60000 <= 59.
Proof.
  apply (proj1 (proj2 (proj2 (formatRelativeTime_buckets 1000 125999)))).
  lia.
Defined.

(** X8: the page says "Never" exactly until the first fetch has resolved;
    failed fetches leave it at "Never". *)
Theorem Never_until_first_success
  {T : Type} (enabled : bool) (tr : list (Event T)) (e : Engine T) (now : Z) :
  run enabled first_render tr = Some e ->
  (formatRelativeTime (as_date (lastUpdated (state e))) now = "Never"
   <-> resolved_completions tr = []).
Proof.
  intros Hrun. rewrite formatRelativeTime_Never.
  rewrite <- (run_never_updated enabled tr e Hrun).
  unfold as_date. destruct (lastUpdated (state e)); split;
    try discriminate; reflexivity.
Qed.

Lemma Never_until_first_success_witness :
  formatRelativeTime
    (as_date (lastUpdated (state Scenario.recovering_end))) 10000 = "Never"
  <-> resolved_completions Scenario.recovering = [].
Proof.
  apply (Never_until_first_success true Scenario.recovering
           Scenario.recovering_end 10000).
  reflexivity.
Defined.

End RelativeTime.

(** ** The gateway's promise *)

Section GatewayShape.
Import JS Api.

(** X4: [request] resolves only for a response with a status from 200 to 299
    whose body is JSON, and then with that body as parsed. *)
Theorem request_resolves_only_on_success (net : fetched) (v : json) :
  request net = Resolved v
  <-> exists r, net = Responded r
                /\ 200 <= resp_status r <= 299
                /\ resp_json r = Some v.
Proof.
  split.
  - destruct net as [msg | r]; cbn; [discriminate |].
    destruct (ok r) eqn:Hok; cbn.
    + destruct (resp_json r) as [w |] eqn:Hj; [| discriminate].
      intros [= ->]. exists r. repeat split; try assumption;
        unfold ok in Hok; apply andb_true_iff in Hok;
        destruct Hok as [H1 H2]; apply Z.leb_le in H1, H2; assumption.
    + destruct (match resp_json r with
                | Some w => w
                | None => JObj [("detail", JStr "Unknown error")]
                end) as [ | b | z | s | l | fields]; cbn; discriminate.
  - intros (r & -> & [Hlo Hhi] & Hj). cbn.
    assert (Hok : ok r = true).
    { unfold ok. apply andb_true_iff. split; apply Z.leb_le; assumption. }
    rewrite Hok, Hj. reflexivity.
Qed.

Lemma request_resolves_only_on_success_witness :
  request (Responded Scenario.accepted)
  = Resolved (JObj [("status", JStr "success")]).
Proof.
  apply (proj2 (request_resolves_only_on_success
                  (Responded Scenario.accepted)
                  (JObj [("status", JStr "success")]))).
  exists Scenario.accepted. repeat split; try reflexivity; cbn; lia.
Defined.

(** X5: what [request] rejects with is an [Error] with a name; when it has a
    [status] it is an [ApiError], the status is the one of the response,
    and it is not a success status. *)
Theorem request_rejection_shape (net : fetched) (e : Error) :
  request net = Rejected e ->
  name e <> ""
  /\ (forall st,
         status e = Some st ->
         name e = "ApiError"
         /\ (st < 200 \/ 299 < st)
         /\ exists r, net = Responded r /\ resp_status r = st).
Proof.
  destruct net as [msg | r]; cbn.
  - intros [= <-]. split; [discriminate | intros st; discriminate].
  - destruct (ok r) eqn:Hok; cbn.
    + destruct (resp_json r); [discriminate |].
      intros [= <-]. split; [discriminate | intros st; discriminate].
    + apply ok_false_iff in Hok.
      destruct (match resp_json r with
                | Some w => w
                | None => JObj [("detail", JStr "Unknown error")]
                end) as [ | b | z | s | l | fields]; cbn;
        intros [= <-]; (split; [discriminate |]); intros st; cbn;
          try discriminate;
          intros [= <-]; (split; [reflexivity |]); (split; [exact Hok |]);
          exists r; split; reflexivity.
Qed.

Lemma request_rejection_shape_witness :
  name (ApiError 404 "Signal not found") <> ""
  /\ (forall st,
         status (ApiError 404 "Signal not found") = Some st ->
         name (ApiError 404 "Signal not found") = "ApiError"
         /\ (st < 200 \/ 299 < st)
         /\ exists r, Responded Scenario.not_found = Responded r
                      /\ resp_status r = st).
Proof.
  apply (request_rejection_shape (Responded Scenario.not_found)
           (ApiError 404 "Signal not found")).
  reflexivity.
Defined.


End GatewayShape.

(** ** The signals table over a run *)

Section SignalsRuns.
Import JS SignalsClient.

Lemma run_snoc (s : State) (tr : list Event) (ev : Event) :
  run s (tr ++ [ev]) = step (run s tr) ev.
Proof. unfold run. rewrite fold_left_app. reflexivity. Qed.

(** *** Before the first successful fetch *)

Lemma waiting_skeleton (sp : URLSearchParams) (s : State) :
  waiting sp s -> displayed s = None.
Proof.
  intros (Hd & _). unfold displayed. rewrite Hd.
  destruct (Polling.isLoading (poll s)); reflexivity.
Qed.

Lemma waiting_step (sp : URLSearchParams) (s : State) (ev : Event) :
  no_success [ev] = true ->
  waiting sp s -> waiting sp (step s ev).
Proof.
  intros Hev Hw. pose proof (waiting_skeleton _ _ Hw) as Hsk.
  destruct Hw as (Hd & Hl & Ha & Hslot & Hlog).
  destruct ev as [ | | ticket o now | b row answer | po answer
                 | ticket o | value | | ]; cbn [step];
    rewrite ?Hsk; try (repeat split; assumption).
  - destruct (fetchData_fields false (fetchSignals (location s)) s)
      as (Floc & Fslot & Fact & Flog & _ & Fdata).
    unfold waiting. rewrite Floc, Fslot, Fact, Flog, Fdata.
    repeat split; try assumption.
    apply Forall_app. split; [assumption |].
    constructor; [rewrite Hl; reflexivity | constructor].
  - destruct (existsb (Nat.eqb ticket) (fetches s));
      [| repeat split; assumption].
    destruct o as [v | err]; [discriminate Hev |].
    repeat split; assumption.
  - unfold onClick. rewrite Hsk. repeat split; assumption.
  - rewrite Ha. cbn. repeat split; assumption.
Qed.

Lemma waiting_run (sp : URLSearchParams) (tr : list Event) :
  forall s, no_success tr = true -> waiting sp s -> waiting sp (run s tr).
Proof.
  induction tr as [| ev rest IH]; intros s Hno Hw; [exact Hw |].
  cbn [no_success forallb] in Hno. apply andb_true_iff in Hno.
  destruct Hno as [Hev Hrest].
  change (run s (ev :: rest)) with (run (step s ev) rest).
  apply IH; [exact Hrest |].
  apply waiting_step; [| exact Hw].
  cbn [no_success forallb]. rewrite Hev. reflexivity.
Qed.

(** X12: until a fetch has resolved the page shows the skeleton and no click
    does anything: the location stays, no handler starts, and the only
    calls made are the list call of the mounted URL, once at mount and
    once per interval tick. *)
Theorem nothing_happens_before_first_success
  (searchParams : URLSearchParams) (tr : list Event) :
  no_success tr = true ->
  displayed (run (mount searchParams) tr) = None
  /\ location (run (mount searchParams) tr) = searchParams
  /\ actions (run (mount searchParams) tr) = []
  /\ actionLoading (run (mount searchParams) tr) = None
  /\ Forall (fun e => e = Net (fetchSignals searchParams))
       (log (run (mount searchParams) tr)).
Proof.
  intros Hno.
  assert (Hw : waiting searchParams (run (mount searchParams) tr)).
  { apply waiting_run; [exact Hno |].
    repeat split; cbn. constructor; [reflexivity | constructor]. }
  split; [exact (waiting_skeleton _ _ Hw) |].
  destruct Hw as (_ & Hl & Ha & Hslot & Hlog). repeat split; assumption.
Qed.

Lemma nothing_happens_before_first_success_witness :
  displayed (run (mount []) Scenario.backend_down) = None
  /\ location (run (mount []) Scenario.backend_down) = []
  /\ actions (run (mount []) Scenario.backend_down) = []
  /\ actionLoading (run (mount []) Scenario.backend_down) = None
  /\ Forall (fun e => e = Net (fetchSignals []))
       (log (run (mount []) Scenario.backend_down)).
Proof.
  apply (nothing_happens_before_first_success [] Scenario.backend_down).
  reflexivity.
Defined.

End SignalsRuns.

(** ** Deleting takes a dialog *)

Section SignalsConsent.
Import JS SignalsClient.

Lemma consent_weaken (l : list Effect) :
  forall agreed,
    deletes_follow_consent false l = true ->
    deletes_follow_consent agreed l = true.
Proof.
  destruct l as [| [r | q a | txt | txt e] rest]; intros agreed; cbn;
    try exact (fun H => H).
  intros H. apply andb_true_iff in H. destruct H as [H1 H2].
  rewrite orb_false_r in H1. rewrite H1, H2. reflexivity.
Qed.

Lemma consent_app (l chunk : list Effect) :
  forall agreed,
    deletes_follow_consent agreed l = true ->
    deletes_follow_consent false chunk = true ->
    deletes_follow_consent agreed (l ++ chunk) = true.
Proof.
  induction l as [| [r | q a | txt | txt e] rest IH]; intros agreed Hl Hc;
    cbn in *.
  - apply consent_weaken. exact Hc.
  - apply andb_true_iff in Hl. destruct Hl as [H1 H2].
    rewrite H1. cbn. apply IH; assumption.
  - apply IH; assumption.
  - apply IH; assumption.
  - apply IH; assumption.
Qed.

Lemma fetchSignals_is_a_fetch (sp : URLSearchParams) :
  is_delete (fetchSignals sp) = false.
Proof. reflexivity. Qed.

(** What one event adds to the log. *)
Lemma step_log (s : State) (ev : Event) :
  forallb holds_a_fetch (actions s) = true ->
  exists chunk,
    log (step s ev) = log s ++ chunk
    /\ deletes_follow_consent false chunk = true
    /\ forallb holds_a_fetch (actions (step s ev)) = true.
Proof.
  intros Hheld.
  assert (Hnone : exists chunk,
             log s = log s ++ chunk
             /\ deletes_follow_consent false chunk = true
             /\ forallb holds_a_fetch (actions s) = true).
  { exists []. rewrite app_nil_r. repeat split. exact Hheld. }
  assert (Hfetch : forall isInitial sp s0,
             actions s0 = actions s -> log s0 = log s ->
             exists chunk,
               log (fetchData isInitial (fetchSignals sp) s0) = log s ++ chunk
               /\ deletes_follow_consent false chunk = true
               /\ forallb holds_a_fetch
                    (actions (fetchData isInitial (fetchSignals sp) s0)) = true).
  { intros isInitial sp s0 Ha Hl. exists [Net (fetchSignals sp)].
    destruct (fetchData_fields isInitial (fetchSignals sp) s0)
      as (_ & _ & Fact & Flog & _).
    rewrite Flog, Fact, Ha, Hl. repeat split. exact Hheld. }
  assert (Hawait : forall a s0 pre,
             actions s0 = actions s -> log s0 = log s ++ pre ->
             deletes_follow_consent false (pre ++ [Net (request_of a)]) = true ->
             exists chunk,
               log (await a s0) = log s ++ chunk
               /\ deletes_follow_consent false chunk = true
               /\ forallb holds_a_fetch (actions (await a s0)) = true).
  { intros a s0 pre Ha Hl Hc. exists (pre ++ [Net (request_of a)]).
    destruct (await_fields a s0) as (_ & _ & _ & _ & Fact & Flog).
    rewrite Flog, Fact, Ha, Hl, <- app_assoc. split; [reflexivity |].
    split; [exact Hc |].
    rewrite forallb_app, Hheld. reflexivity. }
  destruct ev as [ | | ticket o now | b row answer | po answer
                 | ticket o | value | | ]; cbn [step].
  - apply Hfetch; reflexivity.
  - destruct (displayed s); [| exact Hnone].
    destruct (Polling.isRefreshing (poll s)); [exact Hnone |].
    apply Hfetch; reflexivity.
  - destruct (existsb _ _); exact Hnone.
  - destruct (onClick s b row) as [i |]; [| exact Hnone].
    destruct b.
    + apply (Hawait (Confirm i) _ []);
        [reflexivity | symmetry; apply app_nil_r | reflexivity].
    + apply (Hawait (Reject i) _ []);
        [reflexivity | symmetry; apply app_nil_r | reflexivity].
    + unfold handleDelete. destruct answer; cbn [negb].
      * apply (Hawait (Delete i) _
                 [Dialog "Are you sure you want to delete this signal?" true]);
          reflexivity.
      * exists [Dialog "Are you sure you want to delete this signal?" false].
        repeat split. exact Hheld.
  - destruct (displayed s); [| exact Hnone].
    unfold handleDeleteAll. destruct answer; cbn [negb].
    + eapply (Hawait (DeleteAll po) _ [Dialog _ true]); reflexivity.
    + eexists [Dialog _ false]. repeat split. exact Hheld.
  - destruct (lookup ticket (actions s)) as [k |] eqn:Hk; [| exact Hnone].
    assert (Hk_fetch : is_delete (captured_fetch k) = false).
    { apply lookup_In in Hk.
      rewrite forallb_forall in Hheld. specialize (Hheld _ Hk).
      unfold holds_a_fetch in Hheld. cbn in Hheld.
      destruct (is_delete (captured_fetch k)); [discriminate | reflexivity]. }
    assert (Hkept : forallb holds_a_fetch (drop ticket (actions s)) = true).
    { apply forallb_forall. intros x Hx. unfold drop in Hx.
      apply filter_In in Hx. rewrite forallb_forall in Hheld.
      apply Hheld, Hx. }
    unfold resume. destruct (what k), o as [result | e];
      first
        [ exists [Net (captured_fetch k)]; cbn; rewrite Hk_fetch;
          repeat split; exact Hkept
        | exists [ConsoleError (failure_text (what k)) e]; cbn;
          repeat split; exact Hkept
        | idtac ].
    + eexists [ConsoleError _ e]. cbn. repeat split. exact Hkept.
    + eexists [ConsoleError _ e]. cbn. repeat split. exact Hkept.
    + eexists [ConsoleError _ e]. cbn. repeat split. exact Hkept.
    + exists [Alert (deleted_text result); Net (captured_fetch k)]. cbn.
      rewrite Hk_fetch, <- app_assoc. repeat split. exact Hkept.
    + eexists [ConsoleError _ e]. cbn. repeat split. exact Hkept.
  - destruct (displayed s); [| exact Hnone].
    unfold navigate. destruct (_ && _); [exact Hnone |].
    apply Hfetch; reflexivity.
  - destruct (displayed s) as [signals |]; [| exact Hnone].
    destruct (_ && _); [| exact Hnone].
    unfold navigate. destruct (_ && _); [exact Hnone |].
    apply Hfetch; reflexivity.
  - destruct (displayed s) as [signals |]; [| exact Hnone].
    destruct (_ && _); [| exact Hnone].
    unfold navigate. destruct (_ && _); [exact Hnone |].
    apply Hfetch; reflexivity.
Qed.

Lemma run_log (tr : list Event) :
  forall s,
    forallb holds_a_fetch (actions s) = true ->
    deletes_follow_consent false (log s) = true ->
    deletes_follow_consent false (log (run s tr)) = true.
Proof.
  induction tr as [| ev rest IH]; intros s Hheld Hlog; [exact Hlog |].
  change (run s (ev :: rest)) with (run (step s ev) rest).
  destruct (step_log s ev Hheld) as (chunk & Hc & Hok & Hheld').
  apply IH; [exact Hheld' |].
  rewrite Hc. apply consent_app; assumption.
Qed.

(** X13: in every run of the page, each DELETE call, of one signal or of all,
    leaves right after a confirmation dialog that the user agreed to. *)
Theorem no_delete_without_consent
  (searchParams : URLSearchParams) (tr : list Event) :
  deletes_follow_consent false (log (run (mount searchParams) tr)) = true.
Proof.
  apply run_log; reflexivity.
Qed.

(** X14: Confirm and Reject are on a row exactly when its label is "Needs
    Confirmation" and it has an id; Delete is on every row with an id. *)
Theorem buttons_match_label (signal : TradeSignal) :
  (getStatusLabel signal = "Needs Confirmation"
   <-> status signal = Some "pending_confirmation")
  /\ rendered ConfirmButton signal
     = (if String.eqb (getStatusLabel signal) "Needs Confirmation"
        then truthy_id signal else None)
  /\ rendered RejectButton signal = rendered ConfirmButton signal
  /\ rendered DeleteButton signal = truthy_id signal
  /\ (forall b i, rendered b signal = Some i -> id signal = Some i /\ i <> 0).
Proof.
  assert (Hlabel : getStatusLabel signal = "Needs Confirmation"
                   <-> status signal = Some "pending_confirmation").
  { unfold getStatusLabel. destruct (status signal) as [st |].
    - destruct (String.eqb_spec st "pending_confirmation") as [-> | Hne];
        [split; reflexivity |].
      split; [| intros [= H]; contradiction].
      destruct (String.eqb_spec st "confirmed") as [-> | H1];
        [discriminate |].
      destruct (String.eqb_spec st "rejected") as [-> | H2];
        [discriminate |].
      destruct (String.eqb_spec st "executed") as [-> | H3];
        [discriminate |].
      intros H. exfalso. revert H.
      repeat match goal with
             | |- context [match ?x with _ => _ end] => destruct x
             end; try discriminate; try congruence.
    - destruct (processed signal); split; discriminate. }
  split; [exact Hlabel |]. split; [| split; [reflexivity | split; [reflexivity |]]].
  - cbn [rendered]. unfold is_pending_confirmation.
    destruct (String.eqb_spec (getStatusLabel signal) "Needs Confirmation")
      as [He | Hne].
    + apply Hlabel in He. rewrite He. reflexivity.
    + destruct (status signal) as [st |] eqn:Hst; [| reflexivity].
      destruct (String.eqb_spec st "pending_confirmation") as [-> | _];
        [| reflexivity].
      exfalso. apply Hne. apply Hlabel. reflexivity.
  - intros b i Hr.
    assert (Ht : truthy_id signal = Some i).
    { destruct b; cbn in Hr;
        try (destruct (is_pending_confirmation signal); [| discriminate]);
        exact Hr. }
    unfold truthy_id in Ht. destruct (id signal) as [j |]; [| discriminate].
    destruct (Z.eqb_spec j 0); [discriminate |].
    injection Ht as ->. split; [reflexivity | assumption].
Qed.

Lemma buttons_match_label_witness :
  id (Scenario.signal 1 "pending_confirmation") = Some 1 /\ 1 <> 0.
Proof.
  apply (proj2 (proj2 (proj2 (proj2
           (buttons_match_label (Scenario.signal 1 "pending_confirmation")))))
           ConfirmButton 1).
  reflexivity.
Defined.

End SignalsConsent.

(** ** The control panel *)

Section ControlPanelFacts.
Import JS ControlPanel.

Lemma one_at_a_time_step (s : State) (ev : Event) :
  one_at_a_time s -> one_at_a_time (step s ev).
Proof.
  intros Hs. destruct ev as [a | ticket o | | props]; cbn [step].
  - destruct (disabled a s) eqn:Hd; [exact Hs |].
    destruct Hs as [[Hp Hl] | (t & b & Hp & Hl)].
    + right. exists (next_ticket s), a. cbn. rewrite Hp. split; reflexivity.
    + exfalso. unfold disabled, is_loading in Hd. rewrite Hl in Hd.
      destruct a; discriminate Hd.
  - destruct (existsb _ (pending s)) eqn:Hin; [| exact Hs].
    left. destruct Hs as [[Hp Hl] | (t & b & Hp & Hl)].
    + rewrite Hp in Hin. discriminate Hin.
    + rewrite Hp in Hin |- *. cbn in Hin. rewrite orb_false_r in Hin.
      destruct o; cbn; rewrite Hin; split; reflexivity.
  - destruct (timers s); exact Hs.
  - exact Hs.
Qed.

Lemma one_at_a_time_run (tr : list Event) :
  forall s, one_at_a_time s -> one_at_a_time (run s tr).
Proof.
  induction tr as [| ev rest IH]; intros s Hs; [exact Hs |].
  change (run s (ev :: rest)) with (run (step s ev) rest).
  apply IH, one_at_a_time_step, Hs.
Qed.

(** X15: the three buttons share one lock: whatever the operator clicks and
    however the calls settle, at most one trigger call is in flight, and
    [loading] is set exactly while one is.  A job that the status reports
    as running cannot be triggered again, and the full cycle not while
    either job runs. *)
Theorem control_panel_one_call_at_a_time :
  (forall props tr,
      (List.length (pending (run (first_render props) tr)) <= 1)%nat
      /\ (pending (run (first_render props) tr) = []
          <-> loading (run (first_render props) tr) = None))
  /\ (forall s, scraperRunning s = true -> step s (Click scrape) = s)
  /\ (forall s, traderRunning s = true -> step s (Click trade) = s)
  /\ (forall s, scraperRunning s = true \/ traderRunning s = true ->
               step s (Click cycle) = s).
Proof.
  split; [| split; [| split]].
  - intros props tr.
    assert (H : one_at_a_time (run (first_render props) tr)).
    { apply one_at_a_time_run. left. split; reflexivity. }
    destruct H as [[Hp Hl] | (t & a & Hp & Hl)]; rewrite Hp, Hl; cbn.
    + split; [lia | split; reflexivity].
    + split; [lia | split; discriminate].
  - intros s H. cbn. rewrite H, orb_true_r. reflexivity.
  - intros s H. cbn. rewrite H, orb_true_r. reflexivity.
  - intros s H. cbn. unfold anyRunning.
    destruct H as [H | H]; rewrite H, ?orb_true_r; reflexivity.
Qed.

Lemma control_panel_one_call_at_a_time_witness :
  step Scenario.scraper_busy (Click scrape) = Scenario.scraper_busy
  /\ (List.length
        (pending (run (first_render None) Scenario.impatient)) <= 1)%nat.
Proof.
  split.
  - apply (proj1 (proj2 control_panel_one_call_at_a_time) Scenario.scraper_busy).
    reflexivity.
  - apply (proj1 control_panel_one_call_at_a_time None Scenario.impatient).
Defined.

End ControlPanelFacts.

(** ** The dashboard under the polling hook *)

Section DashboardPolling.
Import JS Aggregate Polling.

Context {SystemStats TradeStats TradeSignal Politician ActionStatus : Type}.

Abbreviation Data :=
  (Dashboard.DashboardData SystemStats TradeStats TradeSignal Politician
     ActionStatus).

Lemma fetchDashboardData_resolves
  (a : outcome SystemStats thrown) (b : outcome TradeStats thrown)
  (c : outcome (list TradeSignal) thrown)
  (d : outcome (list Politician) thrown)
  (e : outcome ActionStatus thrown) :
  exists v : Data, Dashboard.fetchDashboardData a b c d e = Resolved v.
Proof.
  destruct a, b, c, d, e; eexists; reflexivity.
Qed.

Lemma dashboard_step (enabled : bool) (e e' : Engine Data) (ev : Event Data) :
  Dashboard.from_fetchDashboardData ev ->
  step enabled e ev = Some e' ->
  (error (state e) = None -> error (state e') = None)
  /\ ((isLoading (state e) = false -> data (state e) <> None) ->
      isLoading (state e') = false -> data (state e') <> None).
Proof.
  intros Hev. destruct ev as [ | | | seq o now]; cbn.
  - intros [= <-]. cbn. split; [exact (fun H => H) | discriminate].
  - destruct enabled; [| discriminate]. intros [= <-]. cbn.
    split; exact (fun H => H).
  - intros [= <-]. cbn. split; exact (fun H => H).
  - destruct (existsb (Nat.eqb seq) (in_flight e)); [| discriminate].
    intros [= <-]. cbn in Hev. destruct Hev as (a & b & c & d & x & ->).
    destruct (fetchDashboardData_resolves a b c d x) as [v ->]. cbn.
    split; [reflexivity | discriminate].
Qed.

(** X16: the dashboard never gets into the error state: its fetch catches each
    of its five calls, so after any run [error] is [null], and once the
    skeleton is gone there is data to show, with [null] or [[]] in the
    places of the sources that failed. *)
Theorem dashboard_never_fails
  (enabled : bool) (tr : list (Event Data)) (e : Engine Data) :
  Forall Dashboard.from_fetchDashboardData tr ->
  run enabled first_render tr = Some e ->
  error (state e) = None
  /\ (isLoading (state e) = false -> data (state e) <> None).
Proof.
  intros Hall.
  assert (Hgen : forall e0,
             run enabled e0 tr = Some e ->
             error (state e0) = None ->
             (isLoading (state e0) = false -> data (state e0) <> None) ->
             error (state e) = None
             /\ (isLoading (state e) = false -> data (state e) <> None)).
  { induction Hall as [| ev rest Hev Hrest IH]; intros e0 Hrun He Hd.
    - cbn in Hrun. injection Hrun as <-. split; assumption.
    - cbn [run] in Hrun.
      destruct (step enabled e0 ev) as [e1 |] eqn:H1; [| discriminate].
      destruct (dashboard_step enabled e0 e1 ev Hev H1) as [He1 Hd1].
      apply (IH e1 Hrun); [exact (He1 He) | exact (Hd1 Hd)]. }
  intros Hrun. apply (Hgen first_render Hrun); [reflexivity | discriminate].
Qed.

End DashboardPolling.

Lemma dashboard_never_fails_witness :
  Polling.error (Polling.state Scenario.degraded_end) = None
  /\ (Polling.isLoading (Polling.state Scenario.degraded_end) = false ->
      Polling.data (Polling.state Scenario.degraded_end) <> None).
Proof.
  apply (dashboard_never_fails true Scenario.degraded_poll
           Scenario.degraded_end).
  - repeat constructor.
    exists (JS.Rejected Scenario.stats_down), (JS.Resolved 12),
           (JS.Resolved ["AAPL"]), (JS.Resolved ["Nancy Pelosi"]),
           (JS.Rejected Scenario.stats_down).
    reflexivity.
  - reflexivity.
Defined.

(** ** Names in paths *)

Section Components.
Import JS.










End Components.

(** ** The portfolio and trades pages *)

Section ServerPages.
Import JS Aggregate.

Lemma Error_toString_named (e : Error) :
  name e <> "" -> Error_toString e <> "".
Proof.
  intros Hn. unfold Error_toString.
  destruct (String.eqb_spec (name e) "") as [He | _]; [contradiction |].
  destruct (String.eqb_spec (message e) "") as [_ | _]; [exact Hn |].
  destruct (name e); [contradiction | discriminate].
Qed.

Lemma request_rejection_named (net : Api.fetched) (e : Error) :
  Api.request net = Rejected e ->
  PortfolioPage.named_failure (ThrownError e).
Proof.
  destruct net as [msg | r]; cbn.
  - intros [= <-]. discriminate.
  - destruct (Api.ok r); cbn.
    + destruct (Api.resp_json r); [discriminate |]. intros [= <-]. discriminate.
    + destruct (match Api.resp_json r with
                | Some w => w
                | None => JObj [("detail", JStr "Unknown error")]
                end) as [ | b | z | s | l | fields]; cbn;
        intros [= <-]; discriminate.
Qed.

Context {Position AccountSummary : Type}.

(** X18: on the portfolio page a failure is told apart from an empty portfolio:
    [fetchPortfolio] always resolves, and when its rejections are errors
    with a name (all errors of the gateway are) the warning is shown
    exactly when one of the two calls failed, and "No open positions"
    exactly when both answered and there are none. *)
Theorem portfolio_failure_is_visible
  (p : outcome (list Position) thrown) (s : outcome AccountSummary thrown) :
  (forall err, p = Rejected err \/ s = Rejected err ->
               PortfolioPage.named_failure err) ->
  exists d,
    PortfolioPage.fetchPortfolio p s = Resolved d
    /\ (PortfolioPage.shows_warning d = true
        <-> (exists err, p = Rejected err) \/ (exists err, s = Rejected err))
    /\ (PortfolioPage.empty_text d = Some "No open positions"
        <-> exists sv, p = Resolved [] /\ s = Resolved sv)
    /\ (PortfolioPage.shows_warning d = true ->
        PortfolioPage.empty_text d = Some "Portfolio data unavailable"
        /\ PortfolioPage.summary d = None).
Proof.
  intros Hnamed.
  assert (Hwarn : forall err,
             PortfolioPage.named_failure err ->
             negb (String.eqb (String_thrown err) "") = true).
  { intros [e | v] H; [| contradiction]. cbn.
    destruct (String.eqb_spec (Error_toString e) "") as [He | _];
      [| reflexivity].
    exfalso. exact (Error_toString_named e H He). }
  destruct p as [pv | pe], s as [sv | se]; cbn; eexists; (split; [reflexivity |]).
  - cbn. split; [| split].
    + split; [discriminate | intros [[err H] | [err H]]; discriminate].
    + destruct pv as [| x rest]; cbn.
      * split; [intros _; exists sv; split; reflexivity | reflexivity].
      * split; [discriminate | intros (sv' & H & _); discriminate].
    + discriminate.
  - unfold PortfolioPage.shows_warning, PortfolioPage.empty_text. cbn.
    rewrite (Hwarn se (Hnamed se (or_intror eq_refl))). split; [| split].
    + split; [intros _; right; eauto | reflexivity].
    + split; [discriminate | intros (sv' & _ & H); discriminate].
    + intros _. split; reflexivity.
  - unfold PortfolioPage.shows_warning, PortfolioPage.empty_text. cbn.
    rewrite (Hwarn pe (Hnamed pe (or_introl eq_refl))). split; [| split].
    + split; [intros _; left; eauto | reflexivity].
    + split; [discriminate | intros (sv' & H & _); discriminate].
    + intros _. split; reflexivity.
  - unfold PortfolioPage.shows_warning, PortfolioPage.empty_text. cbn.
    rewrite (Hwarn pe (Hnamed pe (or_introl eq_refl))). split; [| split].
    + split; [intros _; left; eauto | reflexivity].
    + split; [discriminate | intros (sv' & H & _); discriminate].
    + intros _. split; reflexivity.
Qed.

End ServerPages.

Lemma portfolio_failure_is_visible_witness :
  exists d,
    PortfolioPage.fetchPortfolio Scenario.broker_down Scenario.summary_ok
    = JS.Resolved d
    /\ (PortfolioPage.shows_warning d = true
        <-> (exists err, Scenario.broker_down = JS.Rejected err)
            \/ (exists err, Scenario.summary_ok = JS.Rejected err))
    /\ (PortfolioPage.empty_text d = Some "No open positions"
        <-> exists sv, Scenario.broker_down = JS.Resolved []
                       /\ Scenario.summary_ok = JS.Resolved sv)
    /\ (PortfolioPage.shows_warning d = true ->
        PortfolioPage.empty_text d = Some "Portfolio data unavailable"
        /\ PortfolioPage.summary d = None).
Proof.
  apply (portfolio_failure_is_visible Scenario.broker_down Scenario.summary_ok).
  intros err [H | H]; [| discriminate H].
  injection H as <-. cbn. discriminate.
Defined.

Section TradesLinks.
Import JS Aggregate.

Context {Trade TradeStats : Type}.



End TradesLinks.


(** ** The refresh a handler holds *)

Section StaleRefresh.
Import JS SignalsClient.

Lemma fresh_weaken (s s' : State) (l : list (nat * Suspended)) :
  (next_ticket s <= next_ticket s')%nat ->
  Forall (fun tk => (fst tk < next_ticket s)%nat) l ->
  Forall (fun tk => (fst tk < next_ticket s')%nat) l.
Proof.
  intros Hle H. eapply Forall_impl; [| exact H]. cbn. intros tk Htk. lia.
Qed.

Lemma fresh_fetchData (isInitial : bool) (r : Api.Request) (s : State) :
  tickets_fresh s -> tickets_fresh (fetchData isInitial r s).
Proof.
  unfold tickets_fresh. intros H.
  apply (fresh_weaken s); [destruct isInitial; cbn; lia |].
  destruct isInitial; exact H.
Qed.

Lemma fresh_await (a : Action) (s s0 : State) :
  actions s0 = actions s -> next_ticket s0 = next_ticket s ->
  tickets_fresh s -> tickets_fresh (await a s0).
Proof.
  unfold tickets_fresh. intros Ha Hn H. cbn. rewrite Ha, Hn.
  apply Forall_app. split.
  - eapply Forall_impl; [| exact H]. cbn. intros tk Htk. lia.
  - constructor; [cbn; lia | constructor].
Qed.

Lemma fresh_navigate (params : URLSearchParams) (s : State) :
  tickets_fresh s -> tickets_fresh (navigate params s).
Proof.
  intros H. unfold navigate. destruct (_ && _); [exact H |].
  apply fresh_fetchData. exact H.
Qed.

Lemma fresh_step (s : State) (ev : Event) :
  tickets_fresh s -> tickets_fresh (step s ev).
Proof.
  intros H. destruct ev as [ | | ticket o now | b row answer | po answer
                           | ticket o | value | | ]; cbn [step].
  - apply fresh_fetchData, H.
  - destruct (displayed s); [| exact H].
    destruct (Polling.isRefreshing (poll s)); [exact H |].
    apply fresh_fetchData, H.
  - destruct (existsb _ _); exact H.
  - destruct (onClick s b row) as [i |]; [| exact H].
    destruct b.
    + apply (fresh_await _ s); [reflexivity | reflexivity | exact H].
    + apply (fresh_await _ s); [reflexivity | reflexivity | exact H].
    + unfold handleDelete. destruct answer; cbn [negb]; [| exact H].
      apply (fresh_await _ s); [reflexivity | reflexivity | exact H].
  - destruct (displayed s); [| exact H].
    unfold handleDeleteAll. destruct answer; cbn [negb]; [| exact H].
    apply (fresh_await _ s); [reflexivity | reflexivity | exact H].
  - destruct (lookup ticket (actions s)) as [k |]; [| exact H].
    assert (Hd : tickets_fresh (set_actions (drop ticket (actions s)) s)).
    { unfold tickets_fresh in *. cbn. unfold drop.
      apply Forall_forall. intros x Hx. apply filter_In in Hx.
      rewrite Forall_forall in H. apply H, Hx. }
    unfold resume. destruct (what k), o;
      first [ exact Hd | apply fresh_fetchData; exact Hd ].
  - destruct (displayed s); [| exact H]. apply fresh_navigate, H.
  - destruct (displayed s) as [signals |]; [| exact H].
    destruct (_ && _); [| exact H]. apply fresh_navigate, H.
  - destruct (displayed s) as [signals |]; [| exact H].
    destruct (_ && _); [| exact H]. apply fresh_navigate, H.
Qed.

Lemma fresh_run (tr : list Event) :
  forall s, tickets_fresh s -> tickets_fresh (run s tr).
Proof.
  induction tr as [| ev rest IH]; intros s H; [exact H |].
  change (run s (ev :: rest)) with (run (step s ev) rest).
  apply IH, fresh_step, H.
Qed.

Lemma lookup_last (l : list (nat * Suspended)) (n : nat) (k : Suspended) :
  Forall (fun tk => (fst tk < n)%nat) l ->
  lookup n (l ++ [(n, k)]) = Some k.
Proof.
  induction l as [| [t k'] rest IH]; intros H; cbn.
  - rewrite Nat.eqb_refl. reflexivity.
  - inversion H as [| x xs Hx Hxs]; subst. cbn in Hx.
    destruct (Nat.eqb_spec n t) as [-> | _]; [lia |].
    apply IH. exact Hxs.
Qed.

(** X20: a handler refreshes the list it was started under.  When Confirm or
    Reject is clicked and the filter is changed before the call has
    resolved, the refresh that follows the call is the list call of the
    location at the click, not of the location the filter change led to. *)
Theorem refresh_is_of_the_click
  (searchParams : URLSearchParams) (tr : list Event)
  (b : Button) (row : nat) (answer : bool) (i : Z)
  (value : option bool) (result : ActionResult) :
  b <> DeleteButton ->
  onClick (run (mount searchParams) tr) b row = Some i ->
  log (run (run (mount searchParams) tr)
         [ Click b row answer;
           ClickFilter value;
           ActionSettled (next_ticket (run (mount searchParams) tr))
             (Resolved result) ])
  = log (run (run (mount searchParams) tr)
           [Click b row answer; ClickFilter value])
      ++ [Net (fetchSignals (location (run (mount searchParams) tr)))]
  /\ location (run (run (mount searchParams) tr)
                 [ Click b row answer;
                   ClickFilter value;
                   ActionSettled (next_ticket (run (mount searchParams) tr))
                     (Resolved result) ])
     = setFilter (option_map String_bool value).
Proof.
  intros Hb Hclick.
  set (s := run (mount searchParams) tr) in *.
  assert (Hfresh : tickets_fresh s).
  { apply fresh_run. constructor. }
  assert (Hshown : exists signals, displayed s = Some signals).
  { unfold onClick in Hclick. destruct (displayed s) as [signals |];
      [eauto | discriminate]. }
  destruct Hshown as [signals Hshown].
  assert (Hs1 : exists a,
             step s (Click b row answer) = await a (setActionLoading (Some i) s)
             /\ target a = Some i).
  { cbn [step]. rewrite Hclick. destruct b; [| | contradiction].
    - exists (Confirm i). split; reflexivity.
    - exists (Reject i). split; reflexivity. }
  destruct Hs1 as (a & Hs1 & Ha).
  set (k := mkSuspended a (fetchSignals (location s))).
  assert (Hrun2 : run s [Click b row answer; ClickFilter value]
                  = navigate (setFilter (option_map String_bool value))
                      (await a (setActionLoading (Some i) s))).
  { unfold run. cbn [fold_left]. rewrite Hs1. cbn [step].
    change (displayed (await a (setActionLoading (Some i) s)))
      with (displayed s).
    rewrite Hshown. reflexivity. }
  assert (Hrun3 : run s [ Click b row answer; ClickFilter value;
                          ActionSettled (next_ticket s) (Resolved result) ]
                  = step (run s [Click b row answer; ClickFilter value])
                      (ActionSettled (next_ticket s) (Resolved result)))
    by reflexivity.
  rewrite Hrun3, Hrun2.
  set (s2 := navigate (setFilter (option_map String_bool value))
               (await a (setActionLoading (Some i) s))).
  assert (Hact : actions s2 = actions s ++ [(next_ticket s, k)]).
  { unfold s2. rewrite (proj1 (proj2 (proj2 (navigate_fields _ _)))).
    reflexivity. }
  assert (Hloc : location s2 = setFilter (option_map String_bool value)).
  { unfold s2. apply navigate_fields. }
  assert (Hk : lookup (next_ticket s) (actions s2) = Some k).
  { rewrite Hact. apply lookup_last. exact Hfresh. }
  cbn [step]. rewrite Hk. unfold resume.
  assert (Hwhat : what k = a) by reflexivity.
  rewrite Hwhat.
  destruct a as [j | j | j | po]; try discriminate Ha; cbn; split;
    try reflexivity; exact Hloc.
Qed.

Lemma refresh_is_of_the_click_witness :
  log (run (run (mount []) Scenario.loading_done)
         [ Click ConfirmButton 0 true;
           ClickFilter (Some true);
           ActionSettled (next_ticket (run (mount []) Scenario.loading_done))
             (Resolved Scenario.done) ])
  = log (run (run (mount []) Scenario.loading_done)
           [Click ConfirmButton 0 true; ClickFilter (Some true)])
      ++ [Net (fetchSignals (location (run (mount []) Scenario.loading_done)))]
  /\ location (run (run (mount []) Scenario.loading_done)
                 [ Click ConfirmButton 0 true;
                   ClickFilter (Some true);
                   ActionSettled
                     (next_ticket (run (mount []) Scenario.loading_done))
                     (Resolved Scenario.done) ])
     = setFilter (option_map String_bool (Some true)).
Proof.
  apply (refresh_is_of_the_click [] Scenario.loading_done ConfirmButton
           0%nat true 1 (Some true) Scenario.done).
  - discriminate.
  - reflexivity.
Defined.

End StaleRefresh.
